(** * A shallow embedding of github-ops-a2a-agent

    The Python sources modelled here:
    - [src/src/auth_middleware.py]   BearerAuthMiddleware.dispatch
    - [src/src/github_agent.py]      read_github_issue, open_github_pr,
                                 GitHubAgent.stream,
                                 GitHubAgent.get_agent_response
    - [src/src/util/parse_env.py]    parse_env
    - [src/src/util/github_util.py]  build_github_client, parse_github_repo_url
      (with the part of [urllib.parse.urlparse] it relies on)

    Python [str] values are modelled as [string]; a character is a code
    point in U+0000..U+00FF (an [ascii] value), which covers Latin-1
    decoded HTTP headers. Raised exceptions are the [Raise] case of
    [py_result]. *)

From Stdlib Require Import String Ascii List Bool Arith Lia ZArith.
From stdpp Require Import base strings gmap.
Import ListNotations.
Open Scope string_scope.
(* stdpp makes [String.append] opaque to [simpl]; the proofs below compute
   with it. *)
Arguments String.append : simpl nomatch.

(** ** Python exceptions and results *)

Inductive exc :=
  | ValueError (msg : string)
  | EnvironmentError (msg : string)
  | RuntimeError (msg : string)
  | IndexError.

Inductive py_result (A : Type) :=
  | Ok (a : A)
  | Raise (e : exc).
Arguments Ok {A} a.
Arguments Raise {A} e.

(** ** Python string methods used by the sources *)
Module PyStr.

(** [str.lower] on U+0000..U+00FF: A-Z and the Latin-1 capitals
    U+00C0..U+00DE except U+00D7 map to the code point 32 above. *)
Definition lower_char (c : ascii) : ascii :=
  let n := nat_of_ascii c in
  if (Nat.leb 65 n && Nat.leb n 90) || (Nat.leb 192 n && Nat.leb n 222 && negb (Nat.eqb n 215))
  then ascii_of_nat (n + 32) else c.

Fixpoint lower (s : string) : string :=
  match s with
  | EmptyString => EmptyString
  | String c s' => String (lower_char c) (lower s')
  end.

(** [s.startswith(p)] *)
Definition startswith (s p : string) : bool := String.prefix p s.

(** [s.split(sep, 1)] for a one-character separator. *)
Fixpoint split1 (sep : ascii) (s : string) : list string :=
  match s with
  | EmptyString => [EmptyString]
  | String c s' =>
      if Ascii.eqb c sep then [EmptyString; s']
      else match split1 sep s' with
           | h :: t => String c h :: t
           | [] => [String c EmptyString]
           end
  end.

(** [s.split(sep)] for a one-character separator. *)
Fixpoint split (sep : ascii) (s : string) : list string :=
  match s with
  | EmptyString => [EmptyString]
  | String c s' =>
      if Ascii.eqb c sep then EmptyString :: split sep s'
      else match split sep s' with
           | h :: t => String c h :: t
           | [] => [String c EmptyString]
           end
  end.

(** [s.lstrip(ch)] and [s.rstrip(ch)] for one character; [strip] is both. *)
Fixpoint lstrip (ch : ascii) (s : string) : string :=
  match s with
  | EmptyString => EmptyString
  | String c s' => if Ascii.eqb c ch then lstrip ch s' else s
  end.

Fixpoint rstrip (ch : ascii) (s : string) : string :=
  match s with
  | EmptyString => EmptyString
  | String c s' =>
      match rstrip ch s' with
      | EmptyString => if Ascii.eqb c ch then EmptyString else String c EmptyString
      | r => String c r
      end
  end.

Definition strip (ch : ascii) (s : string) : string := rstrip ch (lstrip ch s).

(** Python truthiness of an optional string ([None] and [""] are falsy). *)
Definition truthy (o : option string) : bool :=
  match o with
  | None | Some EmptyString => false
  | Some _ => true
  end.

End PyStr.

(** ** src/src/auth_middleware.py *)
Module Auth.

(** A Starlette request: URL path, raw header list (names lowercased by
    the ASGI server) and [request.state.token]. *)
Record request := mkRequest {
  path : string;
  headers : list (string * string);
  state_token : option string
}.

(** [request.headers.get(name)]: the first header with that name. *)
Fixpoint headers_get (name : string) (hs : list (string * string)) : option string :=
  match hs with
  | [] => None
  | (k, v) :: hs' => if String.eqb k name then Some v else headers_get name hs'
  end.

(** What [dispatch] does: answer by itself with a JSON response, or
    [await call_next(request)] with the (possibly updated) request. *)
Inductive outcome :=
  | JSONResponse (body : list (string * string)) (status_code : nat)
  | CallNext (r : request)
  | Raised (e : exc).

Definition unauthorized_body : list (string * string) :=
  [("detail", "Missing or invalid Authorization header")].

Definition dispatch (r : request) : outcome :=
  if PyStr.startswith (path r) "/.well-known" then CallNext r
  else
    let auth := headers_get "authorization" (headers r) in
    match auth with
    | Some a =>
        if PyStr.truthy auth && PyStr.startswith (PyStr.lower a) "bearer " then
          match nth_error (PyStr.split1 " " a) 1 with
          | Some token =>
              CallNext {| path := path r; headers := headers r;
                          state_token := Some token |}
          | None => Raised IndexError
          end
        else JSONResponse unauthorized_body 401
    | None => JSONResponse unauthorized_body 401
    end.

End Auth.

(** ** src/src/util/parse_env.py and build_github_client *)
Module Env.

(** [os.environ] and the variables of the [.env] file. *)
Abbreviation environ := (gmap string string).

(** [load_dotenv()]: a variable of the [.env] file is set only when it is
    not already in [os.environ] (no override). *)
Definition load_dotenv (dotenv env : environ) : environ := env ∪ dotenv.

Definition DEFAULT_GITHUB_HOST := "github.com".
Definition DEFAULT_LLM_SOURCE := "google".

Record AgentEnvironment := mkAgentEnvironment {
  github_token : option string;
  github_repo : option string;
  github_owner : option string;
  github_host : string;
  llm_source : string;
  llm_api_key : option string
}.

(** [os.environ.get(k) or default] *)
Definition get_or (env : environ) (k d : string) : string :=
  match env !! k with
  | Some v => if PyStr.truthy (Some v) then v else d
  | None => d
  end.

(** The loop over the required variables. *)
Fixpoint check_required (env : environ) (req : list string) : py_result unit :=
  match req with
  | [] => Ok tt
  | k :: req' =>
      if negb (PyStr.truthy (env !! k))
      then Raise (EnvironmentError ("Missing required environment variable: " ++ k))
      else check_required env req'
  end.

(** [parse_env()], run with the process environment [env] and the
    [.env] file [dotenv]; it also returns the environment after
    [load_dotenv]. *)
Definition parse_env (dotenv env : environ) : py_result (AgentEnvironment * environ) :=
  let env := load_dotenv dotenv env in
  match check_required env ["GITHUB_TOKEN"] with
  | Raise e => Raise e
  | Ok _ =>
      Ok ({| github_token := env !! "GITHUB_TOKEN";
             github_repo := env !! "GITHUB_REPO";
             github_owner := env !! "GITHUB_OWNER";
             github_host := get_or env "GITHUB_HOST" DEFAULT_GITHUB_HOST;
             llm_source := get_or env "LLM_SOURCE" DEFAULT_LLM_SOURCE;
             llm_api_key := env !! "LLM_API_KEY" |}, env)
  end.

(** [build_github_client()]: the token the client is built with. *)
Definition build_github_client (env : environ) : py_result string :=
  match env !! "GITHUB_TOKEN" with
  | Some t => if PyStr.truthy (Some t) then Ok t
              else Raise (RuntimeError "GITHUB_TOKEN env var must be set")
  | None => Raise (RuntimeError "GITHUB_TOKEN env var must be set")
  end.

End Env.

(** ** The [open_github_pr] tool of src/src/github_agent.py *)
Module Tools.

(** The issue object returned by [get_issue(number=n)]. *)
Inductive issue := IssueObj (number : Z).

(** The keyword arguments of the two [create_pull] calls of the source. *)
Inductive create_pull_args :=
  | PullTitleBody (title body : option string) (head base : string)
  | PullFromIssue (head base : string) (iss : issue).

(** The GitHub API calls made through the PyGithub client. *)
Inductive api_call :=
  | GetRepo (full_name : string)
  | GetIssue (number : Z)
  | CreatePull (args : create_pull_args).

(** The API is observed through [accepts c]: whether the GitHub call [c]
    returns (true) or raises (false). The tool returns the calls it
    issued, in order, and whether it returned normally. *)
Definition open_github_pr (env : Env.environ) (accepts : api_call -> bool)
    (repo_owner repo_name head_branch base_branch : string)
    (title body : option string) (related_issue : option Z)
    : list api_call * bool :=
  match Env.build_github_client env with
  | Raise _ => ([], false)
  | Ok _ =>
      let c_repo := GetRepo (repo_owner ++ "/" ++ repo_name) in
      if negb (accepts c_repo) then ([c_repo], false) else
      (* retrieved_issue = get_issue(number=related_issue) if related_issue is not None else None *)
      match related_issue with
      | None =>
          let c_pull := CreatePull (PullTitleBody title body head_branch base_branch) in
          ([c_repo; c_pull], accepts c_pull)
      | Some n =>
          let c_issue := GetIssue n in
          if negb (accepts c_issue) then ([c_repo; c_issue], false) else
          let c_pull := CreatePull (PullFromIssue head_branch base_branch (IssueObj n)) in
          ([c_repo; c_issue; c_pull], accepts c_pull)
      end
  end.

End Tools.

(** ** GitHubAgent.stream and GitHubAgent.get_agent_response *)
Module Agent.

Inductive response_status := input_required | completed | error.

(** [AgentResponseFormat] (a pydantic model, always truthy). *)
Record AgentResponseFormat := mkResponse {
  status : response_status;
  message : string
}.

(** The value stored under [structured_response] in the graph state: an
    [AgentResponseFormat], or any other Python value with its truthiness. *)
Inductive py_value :=
  | VResponse (r : AgentResponseFormat)
  | VOther (is_truthy : bool).

Definition truthy (v : py_value) : bool :=
  match v with
  | VResponse _ => true
  | VOther b => b
  end.

Record tool_call := mkToolCall { tc_name : string; tc_id : string }.

(** langchain's [BaseMessage] subclasses. *)
Inductive BaseMessage :=
  | AIMessage (tool_calls : list tool_call) (content : string)
  | ToolMessage (tool_call_id : string) (content : string)
  | HumanMessage (content : string)
  | SystemMessage (content : string).

(** One state value streamed by [graph.stream(..., stream_mode='values')]
    and the state returned by [graph.get_state(config)]. *)
Record graph_state := mkState {
  messages : list BaseMessage;
  structured_response : option py_value
}.

(** The dicts the generator yields. *)
Record event := mkEvent {
  is_task_complete : bool;
  require_user_input : bool;
  content : string
}.

Definition fallback_message :=
  "We are unable to process your request at the moment. " ++ "Please try again.".

Definition get_agent_response (current_state : graph_state) : event :=
  match structured_response current_state with
  | Some v =>
      if truthy v then
        match v with
        | VResponse sr =>
            match status sr with
            | input_required => mkEvent false true (message sr)
            | error => mkEvent false true (message sr)
            | completed => mkEvent true false (message sr)
            end
        | VOther _ => mkEvent false true fallback_message
        end
      else mkEvent false true fallback_message
  | None => mkEvent false true fallback_message
  end.

Definition invoking_event := mkEvent false false "Invoking GitHub API...".
Definition processing_event := mkEvent false false "Processing GitHub API response...".

(** What the generator yields or raises. *)
Inductive emission :=
  | Yield (e : event)
  | RaiseExc (e : exc).

(** The body of the [for] loop for [message = item['messages'][-1]]. *)
Definition progress (m : BaseMessage) : list emission :=
  match m with
  | AIMessage tcs _ =>
      if negb (Nat.eqb (length tcs) 0) then [Yield invoking_event] else []
  | ToolMessage _ _ => [Yield processing_event]
  | _ => []
  end.

Definition last_message (s : graph_state) : option BaseMessage :=
  List.last (map Some (messages s)) None.

(** [stream]: [items] are the values streamed by the graph for the turn and
    [final] is the state [get_state(config)] returns after it. *)
Fixpoint stream (items : list graph_state) (final : graph_state) : list emission :=
  match items with
  | [] => [Yield (get_agent_response final)]
  | item :: rest =>
      match last_message item with
      | None => [RaiseExc IndexError]
      | Some m => progress m ++ stream rest final
      end
  end.

End Agent.

(** ** parse_github_repo_url (src/src/util/github_util.py) and urllib.parse.urlparse *)
Module Url.

(** [s.partition(c)] when [c] occurs in [s]: the text before and after
    its first occurrence. *)
Fixpoint partition (sep : ascii) (s : string) : option (string * string) :=
  match s with
  | EmptyString => None
  | String c s' =>
      if Ascii.eqb c sep then Some (EmptyString, s')
      else match partition sep s' with
           | Some (a, b) => Some (String c a, b)
           | None => None
           end
  end.

Fixpoint contains (c : ascii) (s : string) : bool :=
  match s with
  | EmptyString => false
  | String c' s' => Ascii.eqb c' c || contains c s'
  end.

(** [_WHATWG_C0_CONTROL_OR_SPACE]: U+0000..U+0020. *)
Definition is_c0_or_space (c : ascii) : bool := Nat.leb (nat_of_ascii c) 32.

Fixpoint lstrip_c0 (s : string) : string :=
  match s with
  | EmptyString => EmptyString
  | String c s' => if is_c0_or_space c then lstrip_c0 s' else s
  end.

(** [_UNSAFE_URL_BYTES_TO_REMOVE]: tab, CR and LF, removed everywhere. *)
Definition is_unsafe (c : ascii) : bool :=
  Ascii.eqb c "009"%char || Ascii.eqb c "013"%char || Ascii.eqb c "010"%char.

Fixpoint remove_unsafe (s : string) : string :=
  match s with
  | EmptyString => EmptyString
  | String c s' => if is_unsafe c then remove_unsafe s' else String c (remove_unsafe s')
  end.

Definition is_ascii_alpha (c : ascii) : bool :=
  let n := nat_of_ascii c in
  (Nat.leb 65 n && Nat.leb n 90) || (Nat.leb 97 n && Nat.leb n 122).

Definition is_ascii_digit (c : ascii) : bool :=
  let n := nat_of_ascii c in Nat.leb 48 n && Nat.leb n 57.

(** [scheme_chars]: letters, digits and [+-.]. *)
Definition scheme_char (c : ascii) : bool :=
  is_ascii_alpha c || is_ascii_digit c
  || Ascii.eqb c "+"%char || Ascii.eqb c "-"%char || Ascii.eqb c "."%char.

Fixpoint all_chars (p : ascii -> bool) (s : string) : bool :=
  match s with
  | EmptyString => true
  | String c s' => p c && all_chars p s'
  end.

(** The scheme step of [urlsplit]: [i = url.find(':')]; if [i > 0],
    [url[0]] is an ASCII letter and [url[:i]] only has scheme characters,
    the scheme is [url[:i].lower()] and the rest is [url[i+1:]]. *)
Definition split_scheme (url : string) : string * string :=
  match partition ":" url with
  | Some (String c0 _ as pre, post) =>
      if is_ascii_alpha c0 && all_chars scheme_char pre
      then (PyStr.lower pre, post) else (EmptyString, url)
  | _ => (EmptyString, url)
  end.

(** [_splitnetloc(url, 2)] once the leading "//" is removed: the netloc
    ends at the first of '/', '?', '#'. *)
Fixpoint split_netloc (s : string) : string * string :=
  match s with
  | EmptyString => (EmptyString, EmptyString)
  | String c s' =>
      if Ascii.eqb c "/" || Ascii.eqb c "?" || Ascii.eqb c "#" then (EmptyString, s)
      else let (n, r) := split_netloc s' in (String c n, r)
  end.

Record SplitResult := mkSplit {
  scheme : string; netloc : string; spath : string; query : string; fragment : string
}.

Record ParseResult := mkParse {
  p_scheme : string; p_netloc : string; p_path : string; p_params : string;
  p_query : string; p_fragment : string
}.

Definition uses_params : list string :=
  [""; "ftp"; "hdl"; "prospero"; "http"; "imap"; "https"; "shttp"; "rtsp";
   "rtsps"; "rtspu"; "sip"; "sips"; "mms"; "sftp"; "tel"].

(** [url.rpartition('/')] when '/' occurs: the text before the last '/'
    and the text from it on. *)
Fixpoint split_last_slash (s : string) : option (string * string) :=
  match s with
  | EmptyString => None
  | String c s' =>
      match split_last_slash s' with
      | Some (a, b) => Some (String c a, b)
      | None => if Ascii.eqb c "/" then Some (EmptyString, s) else None
      end
  end.

(** [_splitparams(url)] (called when ';' occurs in [url]). *)
Definition splitparams (url : string) : string * string :=
  match split_last_slash url with
  | Some (dir, last_seg) =>
      match partition ";" last_seg with
      | Some (a, b) => (dir ++ a, b)
      | None => (url, EmptyString)
      end
  | None =>
      match partition ";" url with
      | Some (a, b) => (a, b)
      | None => (url, EmptyString)
      end
  end.

(** [url.lstrip(_WHATWG_C0_CONTROL_OR_SPACE)], then the unsafe bytes
    removed. *)
Definition clean_url (url : string) : string := remove_unsafe (lstrip_c0 url).

(** [if url[:2] == '//': netloc, url = _splitnetloc(url, 2)] *)
Definition netloc_step (url : string) : string * string :=
  if String.prefix "//" url then split_netloc (substring 2 (String.length url) url)
  else (EmptyString, url).

(** [if c in url: url, rest = url.split(c, 1)] *)
Definition split_on (c : ascii) (url : string) : string * string :=
  match partition c url with
  | Some p => p
  | None => (url, EmptyString)
  end.

(** The two netloc validations of [urlsplit] whose outcome the model does
    not compute: [_check_bracketed_netloc] (IPv6 and IPvFuture host syntax,
    for a netloc holding both '[' and ']'; it depends on the Python
    version) and the NFKC test of [_checknetloc] (whether a non-ASCII
    netloc, once '@', ':', '#' and '?' are removed and it is NFKC-normalized,
    contains one of '/?#@:'). [None] accepts, [Some e] raises [e]. *)
Record netloc_checks := mkChecks {
  check_bracketed_netloc : string -> option exc;
  nfkc_check : string -> option exc
}.

(** Checks that accept every netloc. *)
Definition no_checks : netloc_checks := mkChecks (fun _ => None) (fun _ => None).

Definition is_ascii (c : ascii) : bool := Nat.ltb (nat_of_ascii c) 128.

Section UrlParse.

Variable chk : netloc_checks.

(** [_checknetloc(netloc)]: nothing to check for an empty or ASCII netloc. *)
Definition checknetloc (netloc : string) : option exc :=
  if String.eqb netloc "" || all_chars is_ascii netloc then None
  else nfkc_check chk netloc.

Definition urlsplit (url0 : string) : py_result SplitResult :=
  let url1 := clean_url url0 in
  let (sch, url2) := split_scheme url1 in
  let (net, url3) := netloc_step url2 in
  let has_open := contains "[" net in
  let has_close := contains "]" net in
  if (has_open && negb has_close) || (has_close && negb has_open)
  then Raise (ValueError "Invalid IPv6 URL") else
  match (if has_open && has_close then check_bracketed_netloc chk net else None) with
  | Some e => Raise e
  | None =>
      let (url4, frag) := split_on "#" url3 in
      let (url5, q) := split_on "?" url4 in
      match checknetloc net with
      | Some e => Raise e
      | None => Ok (mkSplit sch net url5 q frag)
      end
  end.

Definition urlparse (url : string) : py_result ParseResult :=
  match urlsplit url with
  | Raise e => Raise e
  | Ok sr =>
      let '(p, params) :=
        if existsb (String.eqb (scheme sr)) uses_params && contains ";" (spath sr)
        then splitparams (spath sr) else (spath sr, EmptyString) in
      Ok (mkParse (scheme sr) (netloc sr) p params (query sr) (fragment sr))
  end.

(** [parse_github_repo_url(url)] *)
Definition parse_github_repo_url (url : string) : py_result (string * string) :=
  match urlparse url with
  | Raise e => Raise e
  | Ok pr =>
      let parts := PyStr.split "/" (PyStr.strip "/" (p_path pr)) in
      if Nat.ltb (length parts) 2
      then Raise (ValueError ("Not a valid GitHub repo URL: " ++ url))
      else match parts with
           | p0 :: p1 :: _ => Ok (p0, p1)
           | _ => Raise IndexError
           end
  end.

(** The path segments [parse_github_repo_url] inspects. *)
Definition path_parts (url : string) : option (list string) :=
  match urlparse url with
  | Raise _ => None
  | Ok pr => Some (PyStr.split "/" (PyStr.strip "/" (p_path pr)))
  end.

End UrlParse.

End Url.

(** ** The [read_github_issue] tool of src/src/github_agent.py *)
Module ReadIssue.
Import Tools.

Section WithDatetime.

(** PyGithub's timestamps and [datetime.isoformat]. *)
Variable datetime : Type.
Variable isoformat : datetime -> string.

(** The attributes of the PyGithub [Issue] object the tool reads. *)
Record Issue := mkIssue {
  html_url : string;
  title : string;
  body : option string;
  state : string;
  created_at : datetime;
  updated_at : datetime
}.

(** The dict the tool returns. *)
Record IssueDict := mkIssueDict {
  d_url : string;
  d_title : string;
  d_body : option string;
  d_state : string;
  d_created_at : string;
  d_updated_at : string
}.

(** As for [open_github_pr], [accepts c] tells whether the GitHub call
    [c] returns or raises; [get_issue n] is the issue returned by an
    accepted [get_issue(number=n)]. The tool returns the calls it issued
    and its result ([None] when it raised). *)
Definition read_github_issue (env : Env.environ) (accepts : api_call -> bool)
    (get_issue : Z -> Issue) (repo_owner repo_name : string) (issue_number : Z)
    : list api_call * option IssueDict :=
  match Env.build_github_client env with
  | Raise _ => ([], None)
  | Ok _ =>
      let c_repo := GetRepo (repo_owner ++ "/" ++ repo_name) in
      if negb (accepts c_repo) then ([c_repo], None) else
      let c_issue := GetIssue issue_number in
      if negb (accepts c_issue) then ([c_repo; c_issue], None) else
      let i := get_issue issue_number in
      ([c_repo; c_issue],
       Some {| d_url := html_url i; d_title := title i; d_body := body i;
               d_state := state i; d_created_at := isoformat (created_at i);
               d_updated_at := isoformat (updated_at i) |})
  end.

End WithDatetime.

Arguments read_github_issue {datetime} isoformat env accepts get_issue
  repo_owner repo_name issue_number.

End ReadIssue.

(** ** Reading of the claims

    Definitions used to state what the specification says, next to the
    ones above that follow the source. *)
Module SpecSide.

(** "an Authorization header of the form [Bearer <token>]" *)
Definition bearer_form (a : string) : Prop :=
  exists token, token <> EmptyString /\ a = "Bearer " ++ token.

(** The Authorization header of a request. *)
Definition auth_header (r : Auth.request) : option string :=
  Auth.headers_get "authorization" (Auth.headers r).

(** The request [r] with [request.state.token] set. *)
Definition with_token (r : Auth.request) (t : string) : Auth.request :=
  {| Auth.path := Auth.path r; Auth.headers := Auth.headers r;
     Auth.state_token := Some t |}.

(** The streamed states of a turn: [item['messages']] is never empty. *)
Definition well_formed_items (items : list Agent.graph_state) : Prop :=
  Forall (fun it => Agent.messages it <> []) items.

(** The terminal (last) emission of a stream. *)
Definition terminal (es : list Agent.emission) : option Agent.emission :=
  List.last (map Some es) None.

Definition emitted_events (es : list Agent.emission) : list Agent.event :=
  flat_map (fun e => match e with Agent.Yield ev => [ev] | _ => [] end) es.

Definition count_content (c : string) (es : list Agent.emission) : nat :=
  length (filter (fun ev => String.eqb (Agent.content ev) c) (emitted_events es)).

(** The tool calls observed in the streamed states: those of each state
    whose last message is an AI message. *)
Definition observed_tool_calls (items : list Agent.graph_state) : nat :=
  fold_right (fun it n =>
    match Agent.last_message it with
    | Some (Agent.AIMessage tcs _) => length tcs + n
    | _ => n
    end) 0 items.

(** The progress emissions of one streamed state. *)
Definition progress_of (it : Agent.graph_state) : list Agent.emission :=
  match Agent.last_message it with
  | Some m => Agent.progress m
  | None => []
  end.

Definition is_terminal_event (ev : Agent.event) : bool :=
  Agent.is_task_complete ev || Agent.require_user_input ev.

(** The [create_pull] arguments the claim asks for. *)
Definition expected_pull (related_issue : option Z) (title body : option string)
    (head base : string) : Tools.create_pull_args :=
  match related_issue with
  | Some n => Tools.PullFromIssue head base (Tools.IssueObj n)
  | None => Tools.PullTitleBody title body head base
  end.

Definition raises {A} (r : py_result A) : Prop :=
  match r with Raise _ => True | Ok _ => False end.

(** A URL text with no query or fragment delimiter. *)
Definition qf_free (s : string) : Prop :=
  Url.contains "?" s = false /\ Url.contains "#" s = false.

(** A text that starts a query string or a fragment. *)
Definition starts_qf (t : string) : bool :=
  match t with
  | String c _ => Ascii.eqb c "?" || Ascii.eqb c "#"
  | EmptyString => false
  end.

End SpecSide.

(** ** URL pieces with no special meaning to urlparse *)
Module UrlInputs.
Import Url.

(** A character that [urlparse] and [parse_github_repo_url] never treat
    specially: above U+0020 (no control character, no space) and none of
    '/', '?', '#', ';', ':', '[' and ']'. *)
Definition plain_char (c : ascii) : bool :=
  negb (Nat.leb (nat_of_ascii c) 32) && negb (contains c "/?#;:[]").

(** A non-empty host name or path segment made of such characters. *)
Definition plain (s : string) : bool :=
  negb (String.eqb s "") && all_chars plain_char s.

End UrlInputs.

(** The calls of a trace all returned. *)
Module TraceProps.
Import Tools.

Definition all_accepted (accepts : api_call -> bool) (tr : list api_call) : Prop :=
  Forall (fun c => accepts c = true) tr.

End TraceProps.

(** ** Concrete inputs *)
Module Examples.
Import Agent.

Definition ex_human := HumanMessage "Open a PR from feature to main for acme/widgets".
Definition ex_ai_calls :=
  AIMessage [mkToolCall "read_github_issue" "call_1"; mkToolCall "open_github_pr" "call_2"] "".
Definition ex_tool1 := ToolMessage "call_1" "{...}".
Definition ex_tool2 := ToolMessage "call_2" "{...}".
Definition ex_ai_done := AIMessage [] "Opened the pull request.".
Definition ex_final :=
  mkState [ex_human; ex_ai_calls; ex_tool1; ex_tool2; ex_ai_done]
          (Some (VResponse (mkResponse completed "Opened the pull request."))).

(** The values streamed for a turn in which the model issues two tool
    calls in one AI message; the tool node adds both tool messages in one
    step. *)
Definition ex_items : list graph_state :=
  [mkState [ex_human] None;
   mkState [ex_human; ex_ai_calls] None;
   mkState [ex_human; ex_ai_calls; ex_tool1; ex_tool2] None;
   ex_final].

(** An environment with an empty GITHUB_HOST and a [.env] file setting it. *)
Definition ex_dotenv : Env.environ := {[ "GITHUB_HOST" := "ghe.example.com" ]}.
Definition ex_environ : Env.environ :=
  {[ "GITHUB_TOKEN" := "ghp_x"; "GITHUB_HOST" := "" ]}.
Definition ex_agent_env : Env.AgentEnvironment :=
  Env.mkAgentEnvironment (Some "ghp_x") None None "github.com" "google" None.

End Examples.

(** * Proofs *)

(** ** The string helpers *)
Module PyStrFacts.
Import PyStr.

Lemma lower_char_space (c : ascii) : lower_char c = " "%char -> c = " "%char.
Proof. destruct c as [[] [] [] [] [] [] [] []]; vm_compute; congruence. Qed.

Lemma lower_app (a b : string) : lower (a ++ b) = lower a ++ lower b.
Proof. induction a as [|c a IH]; simpl; [reflexivity | now rewrite IH]. Qed.

Lemma append_empty_r (a : string) : a ++ EmptyString = a.
Proof. induction a as [|c a IH]; cbn; congruence. Qed.

Lemma prefix_app (a b : string) : String.prefix a (a ++ b) = true.
Proof.
  induction a as [|c a IH]; simpl; [destruct b; reflexivity |].
  destruct (ascii_dec c c); [exact IH | congruence].
Qed.

Lemma split1_not_nil (sep : ascii) (s : string) : split1 sep s <> [].
Proof.
  destruct s as [|c s]; simpl; [discriminate |].
  destruct (Ascii.eqb c sep); [discriminate |].
  destruct (split1 sep s); discriminate.
Qed.

(** A character that is not the separator does not move the second piece. *)
Lemma split1_skip (sep c : ascii) (s : string) :
  c <> sep -> nth_error (split1 sep (String c s)) 1 = nth_error (split1 sep s) 1.
Proof.
  intros Hc; simpl.
  destruct (Ascii.eqb_spec c sep); [contradiction |].
  pose proof (split1_not_nil sep s) as Hn.
  destruct (split1 sep s); [contradiction | reflexivity].
Qed.

Lemma split1_at (sep : ascii) (s : string) :
  nth_error (split1 sep (String sep s)) 1 = Some s.
Proof. simpl. now rewrite Ascii.eqb_refl. Qed.

End PyStrFacts.

(** ** The auth gate *)
Module AuthFacts.
Import Auth SpecSide PyStrFacts.

(** A header whose first seven characters lower-case to "bearer " is
    accepted with the text after them as the token. *)
Lemma token_after_bearer (p rest : string) :
  PyStr.lower p = "bearer " ->
  PyStr.startswith (PyStr.lower (p ++ rest)) "bearer " = true
  /\ nth_error (PyStr.split1 " " (p ++ rest)) 1 = Some rest.
Proof.
  intros Hp. split.
  - unfold PyStr.startswith. rewrite lower_app, Hp. apply prefix_app.
  - destruct p as [|c1 p]; [discriminate |]. destruct p as [|c2 p]; [discriminate |].
    destruct p as [|c3 p]; [discriminate |]. destruct p as [|c4 p]; [discriminate |].
    destruct p as [|c5 p]; [discriminate |]. destruct p as [|c6 p]; [discriminate |].
    destruct p as [|c7 p]; [discriminate |].
    simpl in Hp. injection Hp as H1 H2 H3 H4 H5 H6 H7 H8.
    assert (Hns : forall c, PyStr.lower_char c <> " "%char -> c <> " "%char)
      by (intros c Hc ->; apply Hc; reflexivity).
    change (String c1 (String c2 (String c3 (String c4 (String c5 (String c6
              (String c7 p)))))) ++ rest)
      with (String c1 (String c2 (String c3 (String c4 (String c5 (String c6
              (String c7 (p ++ rest)))))))).
    rewrite !split1_skip
      by (apply Hns; first [rewrite H1 | rewrite H2 | rewrite H3 | rewrite H4
                            | rewrite H5 | rewrite H6]; discriminate).
    rewrite (lower_char_space _ H7). destruct p; [apply split1_at | discriminate].
Qed.

(** A header whose lower-cased text does not start with "bearer " is
    refused before [call_next]. *)
Lemma refused_without_bearer (r : request) (a : string) :
  PyStr.startswith (path r) "/.well-known" = false ->
  auth_header r = Some a ->
  PyStr.startswith (PyStr.lower a) "bearer " = false ->
  dispatch r = JSONResponse unauthorized_body 401.
Proof.
  intros Hp Ha Hb. unfold dispatch. rewrite Hp.
  unfold auth_header in Ha. rewrite Ha, Hb, andb_false_r. reflexivity.
Qed.

Lemma accepted_with_bearer (r : request) (p rest : string) :
  PyStr.startswith (path r) "/.well-known" = false ->
  auth_header r = Some (p ++ rest) ->
  PyStr.lower p = "bearer " ->
  dispatch r = CallNext (with_token r rest).
Proof.
  intros Hpath Ha Hp. destruct (token_after_bearer p rest Hp) as [Hs Hn].
  unfold dispatch. rewrite Hpath. unfold auth_header in Ha. rewrite Ha, Hs, Hn.
  assert (Ht : PyStr.truthy (Some (p ++ rest)) = true).
  { destruct p; [discriminate | reflexivity]. }
  rewrite Ht. reflexivity.
Qed.

End AuthFacts.

(** ** Claims about the auth gate *)
Module AuthClaims.
Import Auth SpecSide AuthFacts.

(** C4 (counterexample): the claim that every header without the form
    [Bearer <token>] is refused with 401 fails: "Bearer " with no token
    reaches the handler, with the empty string as its token. *)
Lemma C4_empty_bearer_token_reaches_handler :
  ~ (forall r : request,
        PyStr.startswith (path r) "/.well-known" = false ->
        (auth_header r = None \/ exists a, auth_header r = Some a /\ ~ bearer_form a) ->
        dispatch r = JSONResponse unauthorized_body 401).
Proof.
  intros H.
  specialize (H (mkRequest "/tasks" [("authorization", "Bearer ")] None)
                eq_refl).
  assert (Hnf : ~ bearer_form "Bearer ").
  { intros [t [Ht Heq]]. apply Ht. simpl in Heq.
    injection Heq as Heq. symmetry. exact Heq. }
  specialize (H (or_intror (ex_intro _ "Bearer " (conj eq_refl Hnf)))).
  vm_compute in H. discriminate H.
Qed.

(** C4 (amended): outside the paths starting with "/.well-known", a
    request with no Authorization header, or with one whose lower-cased
    text does not start with "bearer " (the empty header included), gets
    the 401 JSON response [{"detail": "Missing or invalid Authorization
    header"}] and never reaches [call_next]; a header whose first seven
    characters lower-case to "bearer " reaches [call_next] with the rest
    of the header, possibly empty, as [request.state.token]. *)
Theorem C4_dispatch_bearer_gate (r : request) :
  PyStr.startswith (path r) "/.well-known" = false ->
  (auth_header r = None ->
     dispatch r = JSONResponse unauthorized_body 401) /\
  (forall a, auth_header r = Some a ->
     PyStr.startswith (PyStr.lower a) "bearer " = false ->
     dispatch r = JSONResponse unauthorized_body 401) /\
  (forall p rest, auth_header r = Some (p ++ rest) ->
     PyStr.lower p = "bearer " ->
     dispatch r = CallNext (with_token r rest)).
Proof.
  intros Hp. split; [| split].
  - intros Ha. unfold dispatch. rewrite Hp. unfold auth_header in Ha.
    rewrite Ha. reflexivity.
  - intros a Ha Hb. exact (refused_without_bearer r a Hp Ha Hb).
  - intros p rest Ha Hl. exact (accepted_with_bearer r p rest Hp Ha Hl).
Qed.

Lemma C4_dispatch_bearer_gate_witness :
  PyStr.startswith "/tasks" "/.well-known" = false /\
  dispatch (mkRequest "/tasks" [("authorization", "bEARER abc")] None)
    = CallNext (mkRequest "/tasks" [("authorization", "bEARER abc")] (Some "abc")).
Proof.
  split; [reflexivity |].
  destruct (C4_dispatch_bearer_gate
              (mkRequest "/tasks" [("authorization", "bEARER abc")] None)
              eq_refl) as [_ [_ H]].
  exact (H "bEARER " "abc" eq_refl eq_refl).
Defined.

(** C8: every request whose path starts with "/.well-known" (such as
    "/.well-knownfoo") reaches [call_next] unchanged, whatever its
    headers: no Authorization check and no token attached. *)
Theorem C8_well_known_prefix_bypass (r : request) :
  PyStr.startswith (path r) "/.well-known" = true ->
  dispatch r = CallNext r.
Proof. intros Hp. unfold dispatch. rewrite Hp. reflexivity. Qed.

Lemma C8_well_known_prefix_bypass_witness :
  PyStr.startswith "/.well-knownfoo" "/.well-known" = true /\
  dispatch (mkRequest "/.well-knownfoo" [] None)
    = CallNext (mkRequest "/.well-knownfoo" [] None).
Proof.
  split; [reflexivity |].
  apply (C8_well_known_prefix_bypass (mkRequest "/.well-knownfoo" [] None)).
  reflexivity.
Defined.

(** C9: outside "/.well-known", an Authorization header that is any case
    variant of "Bearer " followed by nothing is accepted and the empty
    string is attached as [request.state.token]. *)
Theorem C9_empty_token_accepted (r : request) (a : string) :
  PyStr.startswith (path r) "/.well-known" = false ->
  auth_header r = Some a ->
  PyStr.lower a = "bearer " ->
  dispatch r = CallNext (with_token r "").
Proof.
  intros Hp Ha Hl. apply (accepted_with_bearer r a ""); [exact Hp | | exact Hl].
  now rewrite PyStrFacts.append_empty_r.
Qed.

Lemma C9_empty_token_accepted_witness :
  PyStr.lower "BeArEr " = "bearer " /\
  dispatch (mkRequest "/message" [("authorization", "BeArEr ")] None)
    = CallNext (mkRequest "/message" [("authorization", "BeArEr ")] (Some "")).
Proof.
  split; [reflexivity |].
  exact (C9_empty_token_accepted
           (mkRequest "/message" [("authorization", "BeArEr ")] None)
           "BeArEr " eq_refl eq_refl eq_refl).
Defined.

End AuthClaims.

(** ** The agent stream *)
Module AgentFacts.
Import Agent SpecSide.

Lemma last_map_some {A} (l : list A) :
  l <> [] -> exists x, List.last (map Some l) None = Some x.
Proof.
  induction l as [|a l IH]; intros Hl; [contradiction |].
  destruct l as [|b l]; [now exists a |].
  destruct IH as [x Hx]; [discriminate |]. exists x. exact Hx.
Qed.

(** With well-formed states, [stream] yields the progress events of the
    states in order and then the response of [get_agent_response]. *)
Lemma stream_shape (items : list graph_state) (final : graph_state) :
  well_formed_items items ->
  stream items final = (flat_map progress_of items ++ [Yield (get_agent_response final)])%list.
Proof.
  induction 1 as [|it items Hit Hitems IH]; [reflexivity |].
  simpl. unfold progress_of.
  destruct (last_map_some (messages it) Hit) as [m Hm].
  unfold last_message. rewrite Hm, IH, app_assoc. reflexivity.
Qed.

Lemma terminal_app (es : list emission) (e : emission) :
  terminal (es ++ [e])%list = Some e.
Proof. unfold terminal. rewrite map_app. apply last_last. Qed.

Lemma terminal_stream (items : list graph_state) (final : graph_state) :
  well_formed_items items ->
  terminal (stream items final) = Some (Yield (get_agent_response final)).
Proof. intros Hw. rewrite (stream_shape items final Hw). apply terminal_app. Qed.

Lemma progress_of_nonterminal (it : graph_state) :
  Forall (fun e => e = Yield invoking_event \/ e = Yield processing_event) (progress_of it).
Proof.
  unfold progress_of. destruct (last_message it) as [m|]; [| constructor].
  destruct m as [tcs c| | |]; simpl; auto.
  destruct (Nat.eqb (length tcs) 0); simpl; auto.
Qed.

End AgentFacts.

(** ** Claims about the agent stream *)
Module AgentClaims.
Import Agent SpecSide AgentFacts Examples.

(** C1: the terminal event of a turn whose structured response has
    status [completed] is [{is_task_complete = true, require_user_input =
    false, content = message}]; with status [input_required] or [error]
    it is [{false, true, message}], so two turns that differ only in
    [input_required] versus [error] stream the same events. *)
Theorem C1_terminal_event_by_status (items : list graph_state) (final : graph_state)
    (r : AgentResponseFormat) :
  well_formed_items items ->
  structured_response final = Some (VResponse r) ->
  (status r = completed ->
     terminal (stream items final) = Some (Yield (mkEvent true false (message r)))) /\
  (status r = input_required \/ status r = error ->
     terminal (stream items final) = Some (Yield (mkEvent false true (message r)))) /\
  (forall final' : graph_state,
     structured_response final = Some (VResponse (mkResponse input_required (message r))) ->
     structured_response final' = Some (VResponse (mkResponse error (message r))) ->
     stream items final = stream items final').
Proof.
  intros Hw Hs. split; [| split].
  - intros Hc. rewrite (terminal_stream items final Hw).
    unfold get_agent_response. rewrite Hs. simpl. rewrite Hc. reflexivity.
  - intros Hc. rewrite (terminal_stream items final Hw).
    unfold get_agent_response. rewrite Hs. simpl.
    destruct Hc as [-> | ->]; reflexivity.
  - intros final' H1 H2. rewrite !(stream_shape items _ Hw).
    unfold get_agent_response. rewrite H1, H2. reflexivity.
Qed.


Lemma C1_terminal_event_by_status_witness :
  well_formed_items ex_items /\
  terminal (stream ex_items ex_final)
    = Some (Yield (mkEvent true false "Opened the pull request.")).
Proof.
  assert (Hw : well_formed_items ex_items)
    by (repeat constructor; discriminate).
  split; [exact Hw |].
  destruct (C1_terminal_event_by_status ex_items ex_final
              (mkResponse completed "Opened the pull request.") Hw eq_refl)
    as [H _].
  exact (H eq_refl).
Defined.

(** C5 (counterexample): progress events are not one per tool call. Two
    tool calls in one AI message give one "invoking" and one
    "processing" event. *)
Lemma C5_one_progress_event_per_message_not_per_call :
  ~ (forall (items : list graph_state) (final : graph_state),
       well_formed_items items ->
       count_content "Invoking GitHub API..." (stream items final)
         = observed_tool_calls items /\
       count_content "Processing GitHub API response..." (stream items final)
         = observed_tool_calls items).
Proof.
  intros H.
  assert (Hw : well_formed_items ex_items)
    by (repeat constructor; discriminate).
  destruct (H ex_items ex_final Hw) as [Hinv _].
  vm_compute in Hinv. discriminate Hinv.
Qed.

(** C5 (amended): the stream yields, in the order of the streamed state
    values, one "invoking" event for each value whose last message is an
    AI message with at least one tool call, one "processing" event for
    each value whose last message is a tool message, nothing for the
    others; then exactly one terminal event, last: it is the only event
    with [is_task_complete] or [require_user_input] set. *)
Theorem C5_stream_progress_then_terminal (items : list graph_state) (final : graph_state) :
  well_formed_items items ->
  stream items final = (flat_map progress_of items ++ [Yield (get_agent_response final)])%list /\
  Forall (fun e => e = Yield invoking_event \/ e = Yield processing_event)
         (flat_map progress_of items) /\
  is_terminal_event invoking_event = false /\
  is_terminal_event processing_event = false /\
  is_terminal_event (get_agent_response final) = true.
Proof.
  intros Hw. split; [exact (stream_shape items final Hw) |].
  split; [| split; [reflexivity | split; [reflexivity |]]].
  - apply Forall_flat_map. apply Forall_forall. intros it _.
    apply progress_of_nonterminal.
  - unfold get_agent_response.
    destruct (structured_response final) as [[[[] m]|b]|]; simpl;
      try reflexivity; destruct b; reflexivity.
Qed.

Lemma C5_stream_progress_then_terminal_witness :
  well_formed_items ex_items /\
  stream ex_items ex_final =
    [Yield invoking_event; Yield processing_event;
     Yield (mkEvent true false "Opened the pull request.")].
Proof.
  assert (Hw : well_formed_items ex_items)
    by (repeat constructor; discriminate).
  split; [exact Hw |].
  destruct (C5_stream_progress_then_terminal ex_items ex_final Hw) as [H _].
  rewrite H. reflexivity.
Defined.

(** C6: when the turn ends without a structured response, or with a
    value that is not an [AgentResponseFormat], the terminal event is
    [{is_task_complete = false, require_user_input = true}] with the
    fixed retry message. *)
Theorem C6_fallback_terminal_event (items : list graph_state) (final : graph_state) :
  well_formed_items items ->
  (structured_response final = None \/
   exists b, structured_response final = Some (VOther b)) ->
  terminal (stream items final) =
    Some (Yield (mkEvent false true
      "We are unable to process your request at the moment. Please try again.")).
Proof.
  intros Hw Hs. rewrite (terminal_stream items final Hw).
  unfold get_agent_response.
  destruct Hs as [-> | [b ->]]; [reflexivity |]. destruct b; reflexivity.
Qed.

Lemma C6_fallback_terminal_event_witness :
  well_formed_items ex_items /\
  terminal (stream ex_items (mkState (messages ex_final) None)) =
    Some (Yield (mkEvent false true
      "We are unable to process your request at the moment. Please try again.")).
Proof.
  assert (Hw : well_formed_items ex_items)
    by (repeat constructor; discriminate).
  split; [exact Hw |].
  exact (C6_fallback_terminal_event ex_items (mkState (messages ex_final) None)
           Hw (or_introl eq_refl)).
Defined.

End AgentClaims.

(** ** Claims about open_github_pr and parse_env *)
Module ToolEnvClaims.
Import Tools SpecSide Examples.

(** C3: whenever [open_github_pr] issues its [create_pull] call, the call
    carries the issue fetched by [get_issue(number=related_issue)] and no
    title or body when [related_issue] is given (whatever title and body
    were passed), and exactly the given title and body otherwise; the call
    is issued once the client is built and the preceding GitHub calls
    succeed. *)
Theorem C3_create_pull_arguments (env : Env.environ) (accepts : api_call -> bool)
    (owner name head base : string) (title body : option string)
    (related_issue : option Z) :
  (forall a, In (CreatePull a)
                (fst (open_github_pr env accepts owner name head base title body related_issue)) ->
             a = expected_pull related_issue title body head base) /\
  ((exists t, Env.build_github_client env = Ok t) ->
   accepts (GetRepo (owner ++ "/" ++ name)) = true ->
   (forall n, related_issue = Some n -> accepts (GetIssue n) = true) ->
   In (CreatePull (expected_pull related_issue title body head base))
      (fst (open_github_pr env accepts owner name head base title body related_issue))).
Proof.
  unfold open_github_pr, expected_pull. split.
  - intros a Hin.
    destruct (Env.build_github_client env); [| contradiction].
    destruct (accepts (GetRepo (owner ++ "/" ++ name))); simpl in Hin;
      [| destruct Hin as [Hin | []]; discriminate].
    destruct related_issue as [n|].
    + destruct (accepts (GetIssue n)); simpl in Hin;
        intuition congruence.
    + simpl in Hin. intuition congruence.
  - intros [t Ht] Hrepo Hissue. rewrite Ht, Hrepo. simpl.
    destruct related_issue as [n|].
    + rewrite (Hissue n eq_refl). simpl. auto.
    + simpl. auto.
Qed.

Lemma C3_create_pull_arguments_witness :
  In (CreatePull (PullFromIssue "feature" "main" (IssueObj 42)))
     (fst (open_github_pr {[ "GITHUB_TOKEN" := "ghp_x" ]} (fun _ => true)
             "acme" "widgets" "feature" "main" (Some "ignored") (Some "ignored") (Some 42%Z))).
Proof.
  destruct (C3_create_pull_arguments {[ "GITHUB_TOKEN" := "ghp_x" ]} (fun _ => true)
              "acme" "widgets" "feature" "main" (Some "ignored") (Some "ignored")
              (Some 42%Z)) as [_ H].
  apply H; [exists "ghp_x"; reflexivity | reflexivity | reflexivity].
Defined.

(** C7 (counterexample): [parse_env] does not raise only when
    GITHUB_TOKEN is absent: a GITHUB_TOKEN set to the empty string also
    raises the configuration error. *)
Lemma C7_empty_token_raises :
  ~ (forall dotenv env : Env.environ,
       raises (Env.parse_env dotenv env) <->
       Env.load_dotenv dotenv env !! "GITHUB_TOKEN" = None).
Proof.
  intros H. destruct (H ∅ {[ "GITHUB_TOKEN" := "" ]}) as [H1 _].
  assert (Hr : raises (Env.parse_env ∅ {[ "GITHUB_TOKEN" := "" ]})) by exact I.
  specialize (H1 Hr). vm_compute in H1. discriminate H1.
Qed.

(** C7 (amended): with [env'] the process environment completed by the
    [.env] file (which never overrides a variable already set),
    [parse_env] raises the configuration error
    [EnvironmentError("Missing required environment variable: GITHUB_TOKEN")]
    exactly when GITHUB_TOKEN is unset or empty in [env'], and raises
    nothing else; when it returns, the token, owner, repo and LLM key are the
    values of [env'] as they are (possibly absent), and GITHUB_HOST and
    LLM_SOURCE default to "github.com" and "google" when unset or empty. *)
Theorem C7_parse_env_token_and_defaults (dotenv env : Env.environ) :
  let env' := Env.load_dotenv dotenv env in
  (forall k v, env !! k = Some v -> env' !! k = Some v) /\
  ((exists msg, Env.parse_env dotenv env = Raise (EnvironmentError msg)) <->
   PyStr.truthy (env' !! "GITHUB_TOKEN") = false) /\
  (forall e, Env.parse_env dotenv env = Raise e ->
     e = EnvironmentError "Missing required environment variable: GITHUB_TOKEN") /\
  (forall a e, Env.parse_env dotenv env = Ok (a, e) ->
     e = env' /\
     Env.github_token a = env' !! "GITHUB_TOKEN" /\
     Env.github_owner a = env' !! "GITHUB_OWNER" /\
     Env.github_repo a = env' !! "GITHUB_REPO" /\
     Env.llm_api_key a = env' !! "LLM_API_KEY" /\
     (PyStr.truthy (env' !! "GITHUB_HOST") = false -> Env.github_host a = "github.com") /\
     (forall h, env' !! "GITHUB_HOST" = Some h -> h <> "" -> Env.github_host a = h) /\
     (PyStr.truthy (env' !! "LLM_SOURCE") = false -> Env.llm_source a = "google") /\
     (forall s, env' !! "LLM_SOURCE" = Some s -> s <> "" -> Env.llm_source a = s)).
Proof.
  intros env'. split; [| split; [| split]].
  - intros k v Hk. unfold env', Env.load_dotenv. now apply lookup_union_Some_l.
  - unfold Env.parse_env, Env.check_required. fold env'.
    destruct (PyStr.truthy (env' !! "GITHUB_TOKEN")); cbn; split.
    + intros [msg H]. discriminate H.
    + discriminate.
    + reflexivity.
    + intros _. eexists. reflexivity.
  - unfold Env.parse_env, Env.check_required. fold env'.
    destruct (PyStr.truthy (env' !! "GITHUB_TOKEN")); cbn; [discriminate |].
    intros e [= <-]. reflexivity.
  - intros a e. unfold Env.parse_env, Env.check_required. fold env'.
    destruct (PyStr.truthy (env' !! "GITHUB_TOKEN")); simpl; [| discriminate].
    intros Hok. injection Hok as <- <-. simpl.
    unfold Env.get_or, Env.DEFAULT_GITHUB_HOST, Env.DEFAULT_LLM_SOURCE.
    repeat split;
      try (destruct (env' !! "GITHUB_HOST") as [[|c h]|]; simpl; congruence);
      try (destruct (env' !! "LLM_SOURCE") as [[|c h]|]; simpl; congruence).
Qed.

Lemma C7_parse_env_token_and_defaults_witness :
  Env.parse_env ex_dotenv ex_environ
    = Ok (ex_agent_env, Env.load_dotenv ex_dotenv ex_environ) /\
  Env.github_host ex_agent_env = "github.com".
Proof.
  assert (Hp : Env.parse_env ex_dotenv ex_environ
               = Ok (ex_agent_env, Env.load_dotenv ex_dotenv ex_environ))
    by (vm_compute; reflexivity).
  split; [exact Hp |].
  destruct (C7_parse_env_token_and_defaults ex_dotenv ex_environ) as [_ [_ [_ H]]].
  destruct (H _ _ Hp) as (_ & _ & _ & _ & _ & Hhost & _).
  apply Hhost. vm_compute. reflexivity.
Defined.

End ToolEnvClaims.

(** ** urlparse: a query string or fragment appended to a URL *)
Module UrlFacts.
Import Url SpecSide PyStrFacts.

Lemma contains_app (x : ascii) (a b : string) :
  contains x (a ++ b) = contains x a || contains x b.
Proof. induction a as [|c a IH]; simpl; [reflexivity | now rewrite IH, orb_assoc]. Qed.

Lemma partition_app_some (x : ascii) (a b pre post : string) :
  partition x a = Some (pre, post) -> partition x (a ++ b) = Some (pre, post ++ b).
Proof.
  revert pre post. induction a as [|c a IH]; intros pre post; simpl; [discriminate |].
  destruct (Ascii.eqb c x); [now intros [= <- <-] |].
  destruct (partition x a) as [[p q]|]; [| discriminate].
  intros [= <- <-]. now rewrite (IH p q eq_refl).
Qed.

Lemma partition_app_none (x : ascii) (a b : string) :
  partition x a = None ->
  partition x (a ++ b) =
    match partition x b with Some (p, q) => Some (a ++ p, q) | None => None end.
Proof.
  induction a as [|c a IH]; simpl.
  - intros _. destruct (partition x b) as [[p q]|]; reflexivity.
  - destruct (Ascii.eqb c x); [discriminate |].
    destruct (partition x a) as [[p q]|]; [discriminate |].
    intros _. rewrite IH by reflexivity.
    destruct (partition x b) as [[p q]|]; reflexivity.
Qed.

Lemma partition_spec (x : ascii) (s a b : string) :
  partition x s = Some (a, b) -> s = a ++ String x b.
Proof.
  revert a b. induction s as [|c s IH]; intros a b; simpl; [discriminate |].
  destruct (Ascii.eqb_spec c x) as [->|_]; [now intros [= <- <-] |].
  destruct (partition x s) as [[p q]|] eqn:E; [| discriminate].
  intros [= <- <-]. simpl. now rewrite (IH p q eq_refl).
Qed.

Lemma partition_absent (x : ascii) (s : string) :
  contains x s = false -> partition x s = None.
Proof.
  induction s as [|c s IH]; simpl; [reflexivity |].
  intros H. apply orb_false_iff in H as [H1 H2].
  rewrite H1, (IH H2). reflexivity.
Qed.

Lemma all_chars_bad (p : ascii -> bool) (a b : string) (h : ascii) :
  p h = false -> all_chars p (a ++ String h b) = false.
Proof.
  intros Hh. induction a as [|c a IH]; simpl; [now rewrite Hh |].
  now rewrite IH, andb_false_r.
Qed.

Lemma starts_qf_cases (t : string) :
  starts_qf t = true -> exists h t', t = String h t' /\ (h = "?"%char \/ h = "#"%char).
Proof.
  destruct t as [|h t']; simpl; [discriminate |]. intros H.
  exists h, t'. split; [reflexivity |].
  apply orb_true_iff in H as [H|H]; apply Ascii.eqb_eq in H; auto.
Qed.

Lemma remove_unsafe_app (a b : string) :
  remove_unsafe (a ++ b) = remove_unsafe a ++ remove_unsafe b.
Proof.
  induction a as [|c a IH]; simpl; [reflexivity |].
  destruct (is_unsafe c); simpl; now rewrite IH.
Qed.

Lemma lstrip_c0_app (a t : string) :
  starts_qf t = true -> lstrip_c0 (a ++ t) = lstrip_c0 a ++ t.
Proof.
  intros Ht. induction a as [|c a IH]; simpl.
  - destruct (starts_qf_cases t Ht) as (h & t' & -> & [-> | ->]); reflexivity.
  - destruct (is_c0_or_space c); [exact IH | reflexivity].
Qed.

Lemma starts_qf_remove (t : string) :
  starts_qf t = true -> starts_qf (remove_unsafe t) = true.
Proof.
  intros Ht. destruct (starts_qf_cases t Ht) as (h & t' & -> & [-> | ->]); reflexivity.
Qed.

Lemma clean_url_app (u t : string) :
  starts_qf t = true -> clean_url (u ++ t) = clean_url u ++ remove_unsafe t.
Proof.
  intros Ht. unfold clean_url. now rewrite lstrip_c0_app, remove_unsafe_app.
Qed.

Lemma contains_lstrip (x : ascii) (s : string) :
  contains x s = false -> contains x (lstrip_c0 s) = false.
Proof.
  induction s as [|c s IH]; simpl; [reflexivity |].
  intros H. apply orb_false_iff in H as [H1 H2].
  destruct (is_c0_or_space c); [exact (IH H2) | simpl; now rewrite H1, H2].
Qed.

Lemma contains_remove (x : ascii) (s : string) :
  contains x s = false -> contains x (remove_unsafe s) = false.
Proof.
  induction s as [|c s IH]; simpl; [reflexivity |].
  intros H. apply orb_false_iff in H as [H1 H2].
  destruct (is_unsafe c); [exact (IH H2) | simpl; now rewrite H1, IH].
Qed.

Lemma qf_free_clean (u : string) : qf_free u -> qf_free (clean_url u).
Proof.
  intros [H1 H2]. unfold clean_url.
  split; apply contains_remove, contains_lstrip; assumption.
Qed.

Lemma qf_free_app (a b : string) : qf_free (a ++ b) -> qf_free b.
Proof.
  intros [H1 H2]. rewrite contains_app in H1, H2.
  apply orb_false_iff in H1 as [_ H1]. apply orb_false_iff in H2 as [_ H2].
  split; assumption.
Qed.

Lemma split_scheme_app (c t : string) :
  qf_free c -> starts_qf t = true ->
  split_scheme (c ++ t) = (fst (split_scheme c), snd (split_scheme c) ++ t)
  /\ qf_free (snd (split_scheme c)).
Proof.
  intros Hc Ht. unfold split_scheme.
  destruct (partition ":" c) as [[pre post]|] eqn:E.
  - rewrite (partition_app_some _ _ _ _ _ E).
    assert (Hpost : qf_free post).
    { apply (qf_free_app pre). rewrite (partition_spec _ _ _ _ E) in Hc.
      destruct Hc as [H1 H2]. rewrite contains_app in H1, H2. simpl in H1, H2.
      apply orb_false_iff in H1 as [H1 H1']. apply orb_false_iff in H2 as [H2 H2'].
      split; rewrite contains_app; apply orb_false_iff; split; assumption. }
    destruct pre as [|c0 pre']; [simpl; split; [reflexivity | exact Hc] |].
    destruct (is_ascii_alpha c0 && all_chars scheme_char (String c0 pre'));
      simpl; split; auto.
  - rewrite (partition_app_none _ _ _ E).
    destruct (starts_qf_cases t Ht) as (h & t' & -> & Hh).
    assert (Hp : partition ":" (String h t') =
                 match partition ":" t' with
                 | Some (a, b) => Some (String h a, b) | None => None end)
      by (destruct Hh as [-> | ->]; reflexivity).
    rewrite Hp. simpl. split; [| exact Hc].
    destruct (partition ":" t') as [[a b]|]; [| reflexivity].
    assert (Hbad : all_chars scheme_char (c ++ String h a) = false)
      by (apply all_chars_bad; destruct Hh as [-> | ->]; reflexivity).
    destruct (c ++ String h a) as [|c0 rest]; [reflexivity |].
    rewrite Hbad, andb_false_r. reflexivity.
Qed.

Lemma split_netloc_app (r t : string) :
  starts_qf t = true ->
  split_netloc (r ++ t) = (fst (split_netloc r), snd (split_netloc r) ++ t).
Proof.
  intros Ht. induction r as [|c r IH]; simpl.
  - destruct (starts_qf_cases t Ht) as (h & t' & -> & [-> | ->]); reflexivity.
  - destruct (Ascii.eqb c "/" || Ascii.eqb c "?" || Ascii.eqb c "#"); [reflexivity |].
    rewrite IH. destruct (split_netloc r); reflexivity.
Qed.

Lemma split_netloc_contains (x : ascii) (r : string) :
  contains x r = false -> contains x (snd (split_netloc r)) = false.
Proof.
  induction r as [|c r IH]; simpl; [reflexivity |].
  intros H. destruct (Ascii.eqb c "/" || Ascii.eqb c "?" || Ascii.eqb c "#");
    [exact H |].
  apply orb_false_iff in H as [_ H].
  destruct (split_netloc r) as [n q] eqn:E. simpl in *. exact (IH H).
Qed.

Lemma substring_all (s : string) (n : nat) :
  String.length s <= n -> substring 0 n s = s.
Proof.
  revert n. induction s as [|c s IH]; intros n Hn; destruct n; simpl in *;
    try reflexivity; [lia |]. rewrite IH by lia. reflexivity.
Qed.

Lemma prefix2_app (r t : string) :
  starts_qf t = true -> String.prefix "//" (r ++ t) = String.prefix "//" r.
Proof.
  intros Ht. destruct (starts_qf_cases t Ht) as (h & t' & -> & Hh).
  destruct r as [|c1 [|c2 r']]; cbn [String.prefix String.append].
  - destruct Hh as [-> | ->]; reflexivity.
  - destruct (ascii_dec "/" c1); [| reflexivity].
    destruct Hh as [-> | ->]; reflexivity.
  - assert (Hp0 : forall x, String.prefix "" x = true) by (intros [|]; reflexivity).
    rewrite !Hp0. reflexivity.
Qed.

Lemma prefix2_true (r : string) :
  String.prefix "//" r = true -> exists r', r = String "/" (String "/" r').
Proof.
  destruct r as [|c1 [|c2 r']]; cbn [String.prefix]; try discriminate.
  - destruct (ascii_dec "/" c1); discriminate.
  - destruct (ascii_dec "/" c1) as [<- |]; [| discriminate].
    destruct (ascii_dec "/" c2) as [<- |]; [| discriminate].
    intros _. exists r'. reflexivity.
Qed.

Lemma netloc_step_app (r t : string) :
  qf_free r -> starts_qf t = true ->
  netloc_step (r ++ t) = (fst (netloc_step r), snd (netloc_step r) ++ t)
  /\ qf_free (snd (netloc_step r)).
Proof.
  intros Hr Ht. unfold netloc_step. rewrite (prefix2_app r t Ht).
  destruct (String.prefix "//" r) eqn:Ep; [| split; [reflexivity | exact Hr]].
  destruct (prefix2_true r Ep) as [r' ->].
  cbn [String.append String.length substring].
  rewrite !substring_all by lia.
  split; [apply split_netloc_app; exact Ht |].
  destruct Hr as [H1 H2]. simpl in H1, H2.
  split; apply split_netloc_contains; assumption.
Qed.

(** The path left once the fragment and then the query are split off. *)
Lemma split_fragment_query_app (x t : string) :
  qf_free x -> starts_qf t = true ->
  fst (split_on "?" (fst (split_on "#" (x ++ t)))) = x
  /\ fst (split_on "?" (fst (split_on "#" x))) = x.
Proof.
  intros [Hq Hh] Ht. unfold split_on.
  pose proof (partition_absent _ _ Hq) as Nq.
  pose proof (partition_absent _ _ Hh) as Nh.
  rewrite Nh. simpl. rewrite Nq. split; [| reflexivity].
  rewrite (partition_app_none _ _ _ Nh).
  destruct (starts_qf_cases t Ht) as (h & t' & -> & [-> | ->]).
  - simpl. destruct (partition "#" t') as [[a b]|]; simpl.
    + rewrite (partition_app_none _ _ _ Nq). simpl. apply append_empty_r.
    + rewrite (partition_app_none _ _ _ Nq). simpl. apply append_empty_r.
  - simpl. rewrite append_empty_r, Nq. reflexivity.
Qed.

End UrlFacts.

(** ** parse_github_repo_url *)
Module UrlParseFacts.
Import Url SpecSide PyStrFacts UrlFacts.

Section WithNetlocCheck.
Variable chk : netloc_checks.

Lemma urlsplit_app_qf (u t : string) (sr : SplitResult) :
  qf_free u -> starts_qf t = true -> urlsplit chk u = Ok sr ->
  exists sr', urlsplit chk (u ++ t) = Ok sr' /\
              scheme sr' = scheme sr /\ spath sr' = spath sr.
Proof.
  intros Hu Ht. unfold urlsplit.
  rewrite (clean_url_app u t Ht).
  pose proof (starts_qf_remove t Ht) as Ht1.
  pose proof (qf_free_clean u Hu) as Hc.
  destruct (split_scheme_app _ _ Hc Ht1) as [Hs Hq2]. rewrite Hs.
  destruct (split_scheme (clean_url u)) as [sch u2]. simpl in Hq2 |- *.
  destruct (netloc_step_app _ _ Hq2 Ht1) as [Hn Hq3]. rewrite Hn.
  destruct (netloc_step u2) as [net u3]. simpl in Hq3 |- *.
  destruct ((contains "[" net && negb (contains "]" net))
            || (contains "]" net && negb (contains "[" net))); [discriminate |].
  destruct (if contains "[" net && contains "]" net
            then check_bracketed_netloc chk net else None); [discriminate |].
  destruct (split_fragment_query_app u3 (remove_unsafe t) Hq3 Ht1) as [Ha Hb].
  destruct (split_on "#" (u3 ++ remove_unsafe t)) as [u4 f] eqn:E4.
  destruct (split_on "?" u4) as [u5 q] eqn:E5. simpl in Ha.
  destruct (split_on "#" u3) as [u4' f'] eqn:E4'.
  destruct (split_on "?" u4') as [u5' q'] eqn:E5'. simpl in Hb.
  rewrite E5 in Ha. rewrite E5' in Hb. simpl in Ha, Hb.
  destruct (checknetloc chk net); [discriminate |].
  intros [= <-]. eexists. split; [reflexivity |]. simpl. split; congruence.
Qed.

Lemma urlparse_app_qf (u t : string) (pr : ParseResult) :
  qf_free u -> starts_qf t = true -> urlparse chk u = Ok pr ->
  exists pr', urlparse chk (u ++ t) = Ok pr' /\ p_path pr' = p_path pr.
Proof.
  intros Hu Ht. unfold urlparse.
  destruct (urlsplit chk u) as [sr|e] eqn:E; [| discriminate].
  destruct (urlsplit_app_qf u t sr Hu Ht E) as (sr' & -> & Hsch & Hp).
  rewrite Hsch, Hp. intros Hok.
  destruct (existsb (String.eqb (scheme sr)) uses_params && contains ";" (spath sr)).
  - destruct (splitparams (spath sr)) as [p params].
    injection Hok as <-. eexists. split; reflexivity.
  - injection Hok as <-. eexists. split; reflexivity.
Qed.

Lemma parse_github_repo_url_app_qf (u t : string) (owner_name : string * string) :
  qf_free u -> starts_qf t = true ->
  parse_github_repo_url chk u = Ok owner_name ->
  parse_github_repo_url chk (u ++ t) = Ok owner_name.
Proof.
  intros Hu Ht. unfold parse_github_repo_url.
  destruct (urlparse chk u) as [pr|e] eqn:E; [| discriminate].
  destruct (urlparse_app_qf u t pr Hu Ht E) as (pr' & -> & Hp).
  rewrite Hp.
  destruct (Nat.ltb (length (PyStr.split "/" (PyStr.strip "/" (p_path pr)))) 2);
    [discriminate | exact (fun H => H)].
Qed.

Lemma parse_github_repo_url_parts (url : string) (a b : string) (rest : list string) :
  path_parts chk url = Some (a :: b :: rest) ->
  parse_github_repo_url chk url = Ok (a, b).
Proof.
  unfold path_parts, parse_github_repo_url.
  destruct (urlparse chk url) as [pr|e]; [| discriminate].
  intros [= ->]. reflexivity.
Qed.

Lemma split_pieces_no_sep (c : ascii) (s x : string) :
  In x (PyStr.split c s) -> contains c x = false.
Proof.
  revert x. induction s as [|c' s IH]; intros x; simpl.
  - intros [<- | []]. reflexivity.
  - destruct (Ascii.eqb c' c) eqn:Ec.
    + intros [<- | Hin]; [reflexivity | exact (IH x Hin)].
    + destruct (PyStr.split c s) as [|h t] eqn:Es.
      * intros [<- | []]. simpl. now rewrite Ec.
      * intros [<- | Hin].
        -- simpl. rewrite Ec. apply IH. left. reflexivity.
        -- apply IH. right. exact Hin.
Qed.

Lemma urlparse_raise (url : string) (e : exc) :
  urlparse chk url = Raise e ->
  e = ValueError "Invalid IPv6 URL" \/
  exists net, check_bracketed_netloc chk net = Some e \/ nfkc_check chk net = Some e.
Proof.
  unfold urlparse, urlsplit.
  destruct (split_scheme (clean_url url)) as [sch u2].
  destruct (netloc_step u2) as [net u3].
  destruct ((contains "[" net && negb (contains "]" net))
            || (contains "]" net && negb (contains "[" net))).
  - intros [= <-]. left. reflexivity.
  - assert (Hrest : match checknetloc chk net with
                    | Some e0 => Raise e0
                    | None => Ok (mkSplit sch net (fst (split_on "?" (fst (split_on "#" u3))))
                                (snd (split_on "?" (fst (split_on "#" u3))))
                                (snd (split_on "#" u3)))
                    end = Raise e ->
                    exists net, check_bracketed_netloc chk net = Some e \/
                                nfkc_check chk net = Some e).
    { unfold checknetloc.
      destruct (String.eqb net "" || all_chars is_ascii net); [discriminate |].
      destruct (nfkc_check chk net) as [e'|] eqn:En; [| discriminate].
      intros [= <-]. exists net. right. exact En. }
    destruct (contains "[" net && contains "]" net).
    + destruct (check_bracketed_netloc chk net) as [e'|] eqn:Ec.
      * intros [= <-]. right. exists net. left. exact Ec.
      * destruct (split_on "#" u3) as [u4 f]. destruct (split_on "?" u4) as [u5 q].
        simpl in Hrest. destruct (checknetloc chk net) as [e'|].
        -- intros [= <-]. right. apply Hrest. reflexivity.
        -- simpl; destruct (_ && _); [destruct (splitparams u5) |]; intros H; discriminate H.
    + destruct (split_on "#" u3) as [u4 f]. destruct (split_on "?" u4) as [u5 q].
      simpl in Hrest. destruct (checknetloc chk net) as [e'|].
      * intros [= <-]. right. apply Hrest. reflexivity.
      * simpl; destruct (_ && _); [destruct (splitparams u5) |]; intros H; discriminate H.
Qed.

End WithNetlocCheck.

End UrlParseFacts.

(** ** Claims about parse_github_repo_url *)
Module UrlClaims.
Import Url SpecSide UrlParseFacts.

(** C2 (counterexample): the pair returned is not always made of
    non-empty segments: "https://github.com/a//b" gives ("a", ""). *)
Lemma C2_empty_segment_returned :
  ~ (forall (chk : netloc_checks) (url a b : string),
       parse_github_repo_url chk url = Ok (a, b) -> a <> "" /\ b <> "").
Proof.
  intros H.
  destruct (H no_checks "https://github.com/a//b" "a" "") as [_ Hb];
    [vm_compute; reflexivity | apply Hb; reflexivity].
Qed.

(** C2 (amended): with netloc checks that raise only [ValueError] (as
    Python's [_check_bracketed_netloc] and [_checknetloc] do),
    [parse_github_repo_url] raises exactly when [urlparse] raises, with
    its exception, or when the URL's path, stripped of leading and trailing
    '/' and split on '/', has fewer than two pieces, with
    [ValueError("Not a valid GitHub repo URL: " + url)]; every exception
    raised is a [ValueError], and [urlparse] raises only to reject the
    netloc (unbalanced brackets, a bracketed host refused by
    [_check_bracketed_netloc], or a non-ASCII netloc refused by the NFKC
    test of [_checknetloc]). Otherwise it returns the first two pieces,
    which contain no '/' but may be empty. *)
Theorem C2_parse_repo_url_result (chk : netloc_checks) (url : string) :
  (forall net e, check_bracketed_netloc chk net = Some e \/ nfkc_check chk net = Some e ->
     exists m, e = ValueError m) ->
  (forall e, parse_github_repo_url chk url = Raise e <->
     urlparse chk url = Raise e \/
     (e = ValueError ("Not a valid GitHub repo URL: " ++ url) /\
      exists parts, path_parts chk url = Some parts /\ length parts < 2)) /\
  (forall e, parse_github_repo_url chk url = Raise e -> exists m, e = ValueError m) /\
  (forall e, urlparse chk url = Raise e ->
     e = ValueError "Invalid IPv6 URL" \/
     exists net, check_bracketed_netloc chk net = Some e \/ nfkc_check chk net = Some e) /\
  (forall a b rest, path_parts chk url = Some (a :: b :: rest) ->
     parse_github_repo_url chk url = Ok (a, b)) /\
  (forall a b, parse_github_repo_url chk url = Ok (a, b) ->
     exists rest, path_parts chk url = Some (a :: b :: rest) /\
                  contains "/" a = false /\ contains "/" b = false).
Proof.
  intros Hval.
  assert (Hup : forall e, urlparse chk url = Raise e ->
     e = ValueError "Invalid IPv6 URL" \/
     exists net, check_bracketed_netloc chk net = Some e \/ nfkc_check chk net = Some e)
    by (intros e; apply urlparse_raise).
  assert (Hparts : forall a b rest, path_parts chk url = Some (a :: b :: rest) ->
                   parse_github_repo_url chk url = Ok (a, b))
    by (intros a b rest; apply parse_github_repo_url_parts).
  unfold parse_github_repo_url, path_parts in *.
  destruct (urlparse chk url) as [pr|e0] eqn:E.
  - set (parts := PyStr.split "/" (PyStr.strip "/" (p_path pr))) in *.
    assert (Hin : forall x, In x parts -> contains "/" x = false)
      by (intros x; apply split_pieces_no_sep).
    assert (Hiff : forall e, (if Nat.ltb (length parts) 2
               then Raise (ValueError ("Not a valid GitHub repo URL: " ++ url))
               else match parts with
                    | p0 :: p1 :: _ => Ok (p0, p1)
                    | _ => Raise IndexError
                    end) = Raise e <->
      Ok pr = Raise e \/
      (e = ValueError ("Not a valid GitHub repo URL: " ++ url) /\
       exists ps, Some parts = Some ps /\ length ps < 2)).
    { intros e. destruct (Nat.ltb_spec (length parts) 2) as [Hl | Hl]; split.
      - intros [= <-]. right. split; [reflexivity |]. exists parts. auto.
      - intros [H | [-> _]]; [discriminate H | reflexivity].
      - destruct parts as [|p0 [|p1 rest]]; simpl in Hl; [lia | lia | discriminate].
      - intros [H | [_ (ps & [= <-] & Hps)]]; [discriminate H | lia]. }
    split; [exact Hiff |]. split; [| split; [exact Hup | split; [exact Hparts |]]].
    + intros e He. apply Hiff in He as [He | [-> _]]; [discriminate He | eauto].
    + intros a b. destruct (Nat.ltb (length parts) 2); [discriminate |].
      destruct parts as [|p0 [|p1 rest]] eqn:Ep; try discriminate.
      intros [= <- <-]. exists rest. split; [reflexivity |].
      split; apply Hin; simpl; auto.
  - split; [| split; [| split; [exact Hup | split; [exact Hparts |]]]].
    + intros e. split; [intros H; left; injection H as <-; reflexivity |].
      intros [H | [_ (ps & Hps & _)]]; [injection H as <-; reflexivity | discriminate Hps].
    + intros e [= <-]. destruct (Hup e0 eq_refl) as [-> | (net & Hn)]; eauto.
    + intros a b Hab. discriminate Hab.
Qed.

Lemma C2_parse_repo_url_result_witness :
  exists rest, path_parts no_checks "https://github.com/a//b" = Some ("a" :: "" :: rest).
Proof.
  destruct (C2_parse_repo_url_result no_checks "https://github.com/a//b")
    as [_ [_ [_ [_ H]]]].
  - intros net e [He | He]; discriminate He.
  - destruct (H "a" "" ltac:(vm_compute; reflexivity)) as [rest [Hp _]].
    exists rest. exact Hp.
Defined.

(** C10: when the path of the URL has two or more pieces after stripping
    '/' and splitting on '/', the result is the first two pieces, whatever
    the further pieces; and a query string or fragment appended to a URL
    that has none leaves a successful result unchanged. *)
Theorem C10_first_two_segments_only :
  (forall (chk : netloc_checks) (url a b : string) (rest : list string),
     path_parts chk url = Some (a :: b :: rest) ->
     parse_github_repo_url chk url = Ok (a, b)) /\
  (forall (chk : netloc_checks) (u t : string) (owner_name : string * string),
     qf_free u -> starts_qf t = true ->
     parse_github_repo_url chk u = Ok owner_name ->
     parse_github_repo_url chk (u ++ t) = Ok owner_name).
Proof.
  split.
  - intros chk url a b rest. apply parse_github_repo_url_parts.
  - intros chk u t p. apply parse_github_repo_url_app_qf.
Qed.

Lemma C10_first_two_segments_only_witness :
  parse_github_repo_url no_checks "https://github.com/a/b/issues/1" = Ok ("a", "b") /\
  parse_github_repo_url no_checks ("https://github.com/a/b" ++ "?tab=readme#top")
    = Ok ("a", "b").
Proof.
  destruct C10_first_two_segments_only as [H1 H2]. split.
  - apply (H1 no_checks _ "a" "b" ["issues"; "1"]). vm_compute. reflexivity.
  - apply H2; [split; reflexivity | reflexivity |].
    apply (H1 no_checks _ "a" "b" []). vm_compute. reflexivity.
Defined.

End UrlClaims.

(** * Further properties of the modelled code *)

(** ** The auth gate: outcomes of [dispatch] *)
Module AuthMore.
Import Auth SpecSide PyStrFacts AuthFacts.

(** A text whose lower-cased form starts with [q] splits into a prefix
    lower-casing to [q] and the rest. *)
Lemma prefix_lower_split (q a : string) :
  String.prefix q (PyStr.lower a) = true ->
  exists p rest, a = p ++ rest /\ PyStr.lower p = q.
Proof.
  revert a. induction q as [|c q IH]; intros a H.
  - exists "", a. split; reflexivity.
  - destruct a as [|c' a]; cbn [PyStr.lower String.prefix] in H; [discriminate |].
    destruct (ascii_dec c (PyStr.lower_char c')) as [E|]; [| discriminate].
    destruct (IH a H) as (p & rest & -> & Hp).
    exists (String c' p), rest. split; [reflexivity |].
    cbn [PyStr.lower]. rewrite Hp, E. reflexivity.
Qed.


(** Every request [dispatch] lets through outside "/.well-known" carries
    as [request.state.token] the Authorization header minus a first part
    that lower-cases to "bearer " (its first seven characters). *)
Theorem dispatch_token_is_header_rest (r r' : request) :
  dispatch r = CallNext r' ->
  PyStr.startswith (path r) "/.well-known" = false ->
  exists p t, auth_header r = Some (p ++ t) /\ PyStr.lower p = "bearer " /\
              state_token r' = Some t /\ String.length p = 7.
Proof.
  intros H Hw. unfold dispatch in H. rewrite Hw in H. unfold auth_header.
  destruct (headers_get "authorization" (headers r)) as [a|]; [| discriminate H].
  destruct (PyStr.truthy (Some a) && PyStr.startswith (PyStr.lower a) "bearer ") eqn:E;
    [| discriminate H].
  apply andb_true_iff in E as [_ E].
  destruct (prefix_lower_split _ _ E) as (p & rest & -> & Hp).
  rewrite (proj2 (token_after_bearer p rest Hp)) in H.
  injection H as <-. exists p, rest. repeat split; auto.
  assert (Hl : forall s, String.length (PyStr.lower s) = String.length s)
    by (induction s; simpl; congruence).
  rewrite <- Hl, Hp. reflexivity.
Qed.

Lemma dispatch_token_is_header_rest_witness :
  dispatch (mkRequest "/tasks" [("authorization", "BEARER xyz")] None)
    = CallNext (mkRequest "/tasks" [("authorization", "BEARER xyz")] (Some "xyz")) /\
  PyStr.startswith "/tasks" "/.well-known" = false /\
  exists p t, Some "BEARER xyz" = Some (p ++ t) /\ PyStr.lower p = "bearer " /\
              Some "xyz" = Some t /\ String.length p = 7.
Proof.
  assert (Hd : dispatch (mkRequest "/tasks" [("authorization", "BEARER xyz")] None)
    = CallNext (mkRequest "/tasks" [("authorization", "BEARER xyz")] (Some "xyz")))
    by (vm_compute; reflexivity).
  split; [exact Hd | split; [reflexivity |]].
  exact (dispatch_token_is_header_rest _ _ Hd eq_refl).
Defined.

End AuthMore.

(** ** The agent: final response and stream errors *)
Module AgentMore.
Import Agent SpecSide AgentFacts.

(** The event built by [get_agent_response] always sets exactly one of
    its two flags, and marks the task complete exactly when the structured
    response is an [AgentResponseFormat] with status [completed]. *)
Theorem response_flags_exclusive (s : graph_state) :
  require_user_input (get_agent_response s) = negb (is_task_complete (get_agent_response s)) /\
  (is_task_complete (get_agent_response s) = true <->
   exists m, structured_response s = Some (VResponse (mkResponse completed m))).
Proof.
  unfold get_agent_response.
  destruct (structured_response s) as [[[st m]|b]|].
  - destruct st; simpl; (split; [reflexivity |]); split;
      solve [discriminate | intros [m' H]; discriminate H
            | intros _; exists m; reflexivity | intros _; reflexivity].
  - destruct b; simpl; (split; [reflexivity |]); split;
      try discriminate; intros [m' H]; discriminate H.
  - simpl. split; [reflexivity |]. split; [discriminate | intros [m' H]; discriminate H].
Qed.

(** A streamed state with no messages makes the generator raise
    [IndexError] right after the progress events of the states before it:
    the final response is never yielded, whatever comes next. *)
Theorem stream_raises_on_empty_state (pre rest : list graph_state)
    (it final : graph_state) :
  well_formed_items pre -> messages it = [] ->
  stream (pre ++ it :: rest) final = (flat_map progress_of pre ++ [RaiseExc IndexError])%list.
Proof.
  intros Hpre Hit. induction Hpre as [|x pre Hx Hpre IH].
  - simpl. unfold last_message. rewrite Hit. reflexivity.
  - simpl. unfold progress_of.
    destruct (last_map_some (messages x) Hx) as [m Hm].
    unfold last_message. rewrite Hm, IH, app_assoc. reflexivity.
Qed.

Lemma stream_raises_on_empty_state_witness :
  stream [mkState [Examples.ex_human; Examples.ex_ai_calls] None; mkState [] None;
          Examples.ex_final] Examples.ex_final
    = [Yield invoking_event; RaiseExc IndexError].
Proof.
  apply (stream_raises_on_empty_state
           [mkState [Examples.ex_human; Examples.ex_ai_calls] None]
           [Examples.ex_final] (mkState [] None) Examples.ex_final).
  - constructor; [discriminate | constructor].
  - reflexivity.
Defined.

End AgentMore.

(** ** Configuration: what [parse_env] guarantees to its users *)
Module EnvMore.
Import Env.

(** Once [parse_env] has returned, [build_github_client] (run on the same
    environment, as the tools do) does not raise: it builds the client
    with the non-empty token [parse_env] recorded. *)
Theorem parse_env_then_client (dotenv env : environ) (a : AgentEnvironment) (e : environ) :
  parse_env dotenv env = Ok (a, e) ->
  exists t, build_github_client e = Ok t /\ github_token a = Some t /\ t <> "".
Proof.
  unfold parse_env, check_required.
  set (e' := load_dotenv dotenv env).
  destruct (PyStr.truthy (e' !! "GITHUB_TOKEN")) eqn:Et; simpl; [| discriminate].
  intros H. injection H as <- <-. simpl.
  unfold build_github_client.
  destruct (e' !! "GITHUB_TOKEN") as [t|]; [| discriminate Et].
  rewrite Et. exists t. repeat split. intros ->. discriminate Et.
Qed.

Lemma parse_env_then_client_witness :
  Env.parse_env Examples.ex_dotenv Examples.ex_environ
    = Ok (Examples.ex_agent_env, Env.load_dotenv Examples.ex_dotenv Examples.ex_environ) /\
  exists t, build_github_client (Env.load_dotenv Examples.ex_dotenv Examples.ex_environ) = Ok t /\
            github_token Examples.ex_agent_env = Some t /\ t <> "".
Proof.
  assert (Hp : Env.parse_env Examples.ex_dotenv Examples.ex_environ
    = Ok (Examples.ex_agent_env, Env.load_dotenv Examples.ex_dotenv Examples.ex_environ))
    by (vm_compute; reflexivity).
  split; [exact Hp |]. exact (parse_env_then_client _ _ _ _ Hp).
Defined.

End EnvMore.

(** ** The GitHub tools: the API calls they issue *)
Module ToolsMore.
Import Tools ReadIssue TraceProps.

(** Closes the goals about a concrete call list. *)
Ltac trace_goals :=
  repeat match goal with
  | |- _ /\ _ => split
  | |- forall _, _ => intro
  | H : False |- _ => destruct H
  | H : _ \/ _ |- _ => destruct H
  | H : CreatePull _ = CreatePull _ |- _ => injection H as <-
  | H : _ = _ |- _ => discriminate H
  end;
  try solve [lia | congruence | left; reflexivity | right; eexists; reflexivity
            | repeat constructor; assumption];
  match goal with
  | |- exists pre, [?x; CreatePull ?y] = _ /\ _ =>
      exists [x]; split; [reflexivity | repeat constructor; assumption]
  | |- exists pre, [?x; ?z; CreatePull ?y] = _ /\ _ =>
      exists [x; z]; split; [reflexivity | repeat constructor; assumption]
  | |- exists pre a, [?x; CreatePull ?y] = _ => exists [x], y; reflexivity
  | |- exists pre a, [?x; ?z; CreatePull ?y] = _ => exists [x; z], y; reflexivity
  end.

(** With GITHUB_TOKEN unset or empty, [build_github_client] raises the
    [RuntimeError] and neither tool issues any GitHub call. *)
Theorem tools_without_token (env : Env.environ) (accepts : api_call -> bool)
    (datetime : Type) (isoformat : datetime -> string) (get_issue : Z -> Issue datetime)
    (owner name head base : string) (title body : option string)
    (related_issue : option Z) (n : Z) :
  PyStr.truthy (env !! "GITHUB_TOKEN") = false ->
  Env.build_github_client env = Raise (RuntimeError "GITHUB_TOKEN env var must be set") /\
  open_github_pr env accepts owner name head base title body related_issue = ([], false) /\
  read_github_issue isoformat env accepts get_issue owner name n = ([], None).
Proof.
  intros Ht.
  assert (Hb : Env.build_github_client env
               = Raise (RuntimeError "GITHUB_TOKEN env var must be set")).
  { unfold Env.build_github_client.
    destruct (env !! "GITHUB_TOKEN") as [t|]; [rewrite Ht |]; reflexivity. }
  unfold open_github_pr, read_github_issue. rewrite Hb. auto.
Qed.

Lemma tools_without_token_witness :
  PyStr.truthy ((∅ : Env.environ) !! "GITHUB_TOKEN") = false /\
  open_github_pr ∅ (fun _ => true) "acme" "widgets" "feature" "main" None None None
    = ([], false).
Proof.
  split; [reflexivity |].
  exact (proj1 (proj2 (tools_without_token ∅ (fun _ => true) string (fun s => s)
    (fun _ => mkIssue string "" "" None "" "" "") "acme" "widgets" "feature" "main"
    None None None 0%Z eq_refl))).
Defined.

(** The calls of [open_github_pr]: at most three; the first is
    [get_repo("owner/name")]; [get_issue(n)] only for [related_issue = n];
    a [create_pull] only as the last call, after calls that all succeeded;
    and the tool returns normally only when every call it issued succeeded,
    the last being a [create_pull]. *)
Theorem open_pr_call_order (env : Env.environ) (accepts : api_call -> bool)
    (owner name head base : string) (title body : option string)
    (related_issue : option Z) :
  let tr := fst (open_github_pr env accepts owner name head base title body related_issue) in
  length tr <= 3 /\
  (tr = [] \/ exists rest, tr = GetRepo (owner ++ "/" ++ name) :: rest) /\
  (forall k, In (GetIssue k) tr -> related_issue = Some k) /\
  (forall a, In (CreatePull a) tr ->
     exists pre, tr = (pre ++ [CreatePull a])%list /\ all_accepted accepts pre) /\
  (snd (open_github_pr env accepts owner name head base title body related_issue) = true ->
     all_accepted accepts tr /\ exists pre a, tr = (pre ++ [CreatePull a])%list).
Proof.
  intros tr; subst tr. unfold open_github_pr, all_accepted.
  destruct (Env.build_github_client env) as [t|e]; simpl; [| trace_goals].
  destruct (accepts (GetRepo (owner ++ String "/" name))) eqn:Er; simpl; [| trace_goals].
  destruct related_issue as [k|]; simpl; [| trace_goals].
  destruct (accepts (GetIssue k)) eqn:Ei; simpl; trace_goals.
Qed.

(** [read_github_issue] only reads: its calls are a prefix of
    [get_repo("owner/name"); get_issue(n)], never a [create_pull]; with a
    token and both calls succeeding it returns the dict of issue [n], the
    timestamps in ISO format; it returns only in that case. *)
Theorem read_issue_read_only (datetime : Type) (isoformat : datetime -> string)
    (env : Env.environ) (accepts : api_call -> bool) (get_issue : Z -> Issue datetime)
    (owner name : string) (n : Z) :
  let res := read_github_issue isoformat env accepts get_issue owner name n in
  (exists k, fst res = firstn k [GetRepo (owner ++ "/" ++ name); GetIssue n]) /\
  (forall a, ~ In (CreatePull a) (fst res)) /\
  (forall d, snd res = Some d ->
     (exists t, Env.build_github_client env = Ok t) /\
     fst res = [GetRepo (owner ++ "/" ++ name); GetIssue n] /\
     all_accepted accepts (fst res) /\
     d = {| d_url := html_url _ (get_issue n); d_title := title _ (get_issue n);
            d_body := body _ (get_issue n); d_state := state _ (get_issue n);
            d_created_at := isoformat (created_at _ (get_issue n));
            d_updated_at := isoformat (updated_at _ (get_issue n)) |}) /\
  ((exists t, Env.build_github_client env = Ok t) ->
   accepts (GetRepo (owner ++ "/" ++ name)) = true -> accepts (GetIssue n) = true ->
   snd res <> None).
Proof.
  intros res; subst res. unfold read_github_issue, all_accepted.
  destruct (Env.build_github_client env) as [t|e]; simpl.
  2: { split; [exists 0; reflexivity |]. split; [intros a [] |].
       split; [discriminate |]. intros [t Ht]; discriminate Ht. }
  destruct (accepts (GetRepo (owner ++ String "/" name))) eqn:Er; simpl.
  2: { split; [exists 1; reflexivity |]. split; [intros a [H | []]; discriminate H |].
       split; [discriminate |]. intros _ H; discriminate H. }
  destruct (accepts (GetIssue n)) eqn:Ei; simpl;
    (split; [exists 2; reflexivity |]);
    (split; [intros a [H | [H | []]]; discriminate H |]).
  - split.
    + intros d Hd. injection Hd as <-.
      split; [eauto |]. split; [reflexivity |].
      split; [repeat constructor; assumption | reflexivity].
    + intros _ _ _. discriminate.
  - split; [discriminate |]. intros _ _ H; discriminate H.
Qed.

End ToolsMore.

(** ** parse_github_repo_url on well-formed repository URLs *)
Module UrlMore.
Import Url UrlInputs PyStrFacts UrlFacts.

Lemma plain_char_facts (c : ascii) :
  plain_char c = true ->
  is_unsafe c = false /\ is_c0_or_space c = false /\
  Ascii.eqb c "/" = false /\ Ascii.eqb c "?" = false /\ Ascii.eqb c "#" = false /\
  Ascii.eqb c ";" = false /\ Ascii.eqb c ":" = false /\
  Ascii.eqb c "[" = false /\ Ascii.eqb c "]" = false.
Proof.
  destruct c as [[] [] [] [] [] [] [] []]; vm_compute;
    first [discriminate | intros _; repeat split].
Qed.

Lemma all_chars_app (p : ascii -> bool) (a b : string) :
  all_chars p (a ++ b) = all_chars p a && all_chars p b.
Proof. induction a as [|c a IH]; simpl; [reflexivity | now rewrite IH, andb_assoc]. Qed.

Lemma all_chars_not_contains (p : ascii -> bool) (x : ascii) (s : string) :
  (forall c, p c = true -> Ascii.eqb c x = false) ->
  all_chars p s = true -> contains x s = false.
Proof.
  intros Hp. induction s as [|c s IH]; simpl; [reflexivity |].
  intros H. apply andb_true_iff in H as [H1 H2].
  now rewrite (Hp c H1), (IH H2).
Qed.

Lemma remove_unsafe_id (s : string) :
  all_chars (fun c => negb (is_unsafe c)) s = true -> remove_unsafe s = s.
Proof.
  induction s as [|c s IH]; simpl; [reflexivity |].
  intros H. apply andb_true_iff in H as [H1 H2].
  destruct (is_unsafe c); [discriminate H1 | now rewrite (IH H2)].
Qed.

Lemma all_chars_mono (p q : ascii -> bool) (s : string) :
  (forall c, p c = true -> q c = true) -> all_chars p s = true -> all_chars q s = true.
Proof.
  intros Hpq. induction s as [|c s IH]; simpl; [reflexivity |].
  intros H. apply andb_true_iff in H as [H1 H2]. now rewrite (Hpq c H1), (IH H2).
Qed.

Lemma plain_chars (s : string) :
  plain s = true -> all_chars plain_char s = true.
Proof. unfold plain. intros H. apply andb_true_iff in H. apply H. Qed.

Lemma plain_cons (s : string) :
  plain s = true -> exists c s', s = String c s' /\ plain_char c = true.
Proof.
  unfold plain. destruct s as [|c s']; [discriminate |].
  intros H. apply andb_true_iff in H as [_ H]. simpl in H.
  apply andb_true_iff in H as [H _]. eauto.
Qed.

(** The characters of a plain text are none of the special ones. *)
Ltac plain_not :=
  apply (all_chars_not_contains plain_char);
  [intros ?c ?Hc; apply plain_char_facts in Hc; intuition | apply plain_chars; assumption].

Lemma safe_of_plain (s : string) :
  plain s = true -> all_chars (fun c => negb (is_unsafe c)) s = true.
Proof.
  intros H. apply (all_chars_mono plain_char); [| exact (plain_chars s H)].
  intros c Hc. apply plain_char_facts in Hc as [-> _]. reflexivity.
Qed.

Lemma split_netloc_host (h r : string) :
  contains "/" h = false -> contains "?" h = false -> contains "#" h = false ->
  split_netloc (h ++ String "/" r) = (h, String "/" r).
Proof.
  induction h as [|c h IH]; intros H1 H2 H3; [reflexivity |].
  simpl in H1, H2, H3. apply orb_false_iff in H1 as [E1 H1].
  apply orb_false_iff in H2 as [E2 H2]. apply orb_false_iff in H3 as [E3 H3].
  cbn [String.append split_netloc]. rewrite E1, E2, E3. simpl.
  now rewrite (IH H1 H2 H3).
Qed.

Lemma lstrip_keep (ch c : ascii) (s : string) :
  Ascii.eqb c ch = false -> PyStr.lstrip ch (String c s) = String c s.
Proof. intros H. simpl. now rewrite H. Qed.

Lemma rstrip_no_ch (ch : ascii) (s : string) :
  contains ch s = false -> PyStr.rstrip ch s = s.
Proof.
  induction s as [|c s IH]; simpl; [reflexivity |].
  intros H. apply orb_false_iff in H as [H1 H2]. rewrite (IH H2).
  destruct s; [now rewrite H1 | reflexivity].
Qed.

Lemma rstrip_app_keep (ch : ascii) (a b : string) :
  PyStr.rstrip ch b <> "" -> PyStr.rstrip ch (a ++ b) = a ++ PyStr.rstrip ch b.
Proof.
  intros Hb. induction a as [|c a IH]; [reflexivity |].
  cbn [String.append PyStr.rstrip]. rewrite IH.
  destruct (a ++ PyStr.rstrip ch b) eqn:E; [| reflexivity].
  destruct a; [contradiction | discriminate].
Qed.

Lemma rstrip_trailing (ch : ascii) (a : string) :
  PyStr.rstrip ch (a ++ String ch "") = PyStr.rstrip ch a.
Proof.
  induction a as [|c a IH].
  - simpl. now rewrite Ascii.eqb_refl.
  - cbn [String.append PyStr.rstrip]. now rewrite IH.
Qed.

Lemma split_no_sep (c : ascii) (s : string) :
  contains c s = false -> PyStr.split c s = [s].
Proof.
  induction s as [|c' s IH]; simpl; [reflexivity |].
  intros H. apply orb_false_iff in H as [H1 H2]. now rewrite H1, (IH H2).
Qed.

Lemma split_at_sep (c : ascii) (a b : string) :
  contains c a = false -> PyStr.split c (a ++ String c b) = a :: PyStr.split c b.
Proof.
  induction a as [|c' a IH]; intros H.
  - simpl. now rewrite Ascii.eqb_refl.
  - simpl in H. apply orb_false_iff in H as [H1 H2].
    cbn [String.append PyStr.split]. now rewrite H1, (IH H2).
Qed.

Section WithNetlocCheck.
Variable chk : netloc_checks.

Lemma urlsplit_https (Y net path : string) :
  all_chars (fun c => negb (is_unsafe c)) Y = true ->
  split_netloc Y = (net, path) ->
  contains "[" net = false -> contains "]" net = false ->
  contains "?" path = false -> contains "#" path = false ->
  checknetloc chk net = None ->
  urlsplit chk ("https://" ++ Y) = Ok (mkSplit "https" net path "" "").
Proof.
  intros Hs Hsn Ho Hc Hq Hf Hck. unfold urlsplit.
  assert (Hcl : clean_url ("https://" ++ Y) = "https://" ++ Y).
  { unfold clean_url. change (lstrip_c0 ("https://" ++ Y)) with ("https://" ++ Y).
    apply remove_unsafe_id. rewrite all_chars_app. rewrite Hs. reflexivity. }
  rewrite Hcl.
  change (split_scheme ("https://" ++ Y)) with ("https", "//" ++ Y).
  assert (Hn : netloc_step ("//" ++ Y) = (net, path)).
  { unfold netloc_step.
    assert (Hp : String.prefix "//" ("//" ++ Y) = true) by (destruct Y; reflexivity).
    rewrite Hp.
    change (substring 2 (String.length ("//" ++ Y)) ("//" ++ Y))
      with (substring 0 (S (S (String.length Y))) Y).
    rewrite substring_all by lia. exact Hsn. }
  cbv beta iota zeta. rewrite Hn. cbv beta iota zeta. rewrite Ho, Hc.
  cbn [andb orb negb].
  unfold split_on. rewrite (partition_absent _ _ Hf).
  rewrite (partition_absent _ _ Hq). cbv beta iota zeta. rewrite Hck. reflexivity.
Qed.

Lemma urlsplit_no_scheme (Y : string) :
  all_chars (fun c => negb (is_unsafe c)) Y = true ->
  (exists c Y', Y = String c Y' /\ is_c0_or_space c = false /\ Ascii.eqb c "/" = false) ->
  contains ":" Y = false -> contains "?" Y = false -> contains "#" Y = false ->
  urlsplit chk Y = Ok (mkSplit "" "" Y "" "").
Proof.
  intros Hs (c & Y' & -> & Hc0 & Hsl) Hcol Hq Hf. unfold urlsplit.
  assert (Hcl : clean_url (String c Y') = String c Y').
  { unfold clean_url. cbn [lstrip_c0]. rewrite Hc0. apply remove_unsafe_id. exact Hs. }
  rewrite Hcl. unfold split_scheme. rewrite (partition_absent _ _ Hcol).
  cbv beta iota zeta. unfold netloc_step.
  assert (Hp : String.prefix "//" (String c Y') = false).
  { cbn [String.prefix]. destruct (ascii_dec "/" c) as [<- |]; [discriminate Hsl | reflexivity]. }
  rewrite Hp. cbv beta iota zeta. cbn [contains andb orb negb].
  unfold split_on. rewrite (partition_absent _ _ Hf).
  rewrite (partition_absent _ _ Hq). reflexivity.
Qed.

End WithNetlocCheck.

Lemma str_app_assoc (a b c : string) : a ++ (b ++ c) = (a ++ b) ++ c.
Proof. induction a as [|x a IH]; simpl; congruence. Qed.

Lemma plain_no (s : string) (H : plain s = true) :
  contains "/" s = false /\ contains "?" s = false /\ contains "#" s = false /\
  contains ";" s = false /\ contains ":" s = false /\
  contains "[" s = false /\ contains "]" s = false.
Proof. repeat split; plain_not. Qed.

Lemma lstrip_plain (s t : string) :
  plain s = true -> PyStr.lstrip "/" (s ++ t) = s ++ t.
Proof.
  intros H. destruct (plain_cons s H) as (c & s' & -> & Hc).
  apply lstrip_keep. apply plain_char_facts in Hc. tauto.
Qed.

Lemma rstrip_plain_tail (a b : string) :
  plain b = true -> PyStr.rstrip "/" (a ++ b) = a ++ b.
Proof.
  intros H. assert (Hb : PyStr.rstrip "/" b = b)
    by (apply rstrip_no_ch; apply (plain_no b H)).
  rewrite rstrip_app_keep, Hb; [reflexivity |]. rewrite Hb.
  destruct (plain_cons b H) as (c & b' & -> & _). discriminate.
Qed.

Lemma strip_two (o n : string) :
  plain o = true -> plain n = true ->
  PyStr.strip "/" (String "/" (o ++ String "/" n)) = o ++ String "/" n.
Proof.
  intros Ho Hn. unfold PyStr.strip.
  change (PyStr.lstrip "/" (String "/" (o ++ String "/" n)))
    with (PyStr.lstrip "/" (o ++ String "/" n)).
  rewrite lstrip_plain by exact Ho.
  change (o ++ String "/" n) with (o ++ (String "/" "" ++ n)).
  rewrite str_app_assoc. apply rstrip_plain_tail. exact Hn.
Qed.

Lemma strip_two_trailing (o n : string) :
  plain o = true -> plain n = true ->
  PyStr.strip "/" (String "/" (o ++ String "/" (n ++ String "/" "")))
    = o ++ String "/" n.
Proof.
  intros Ho Hn. unfold PyStr.strip.
  change (PyStr.lstrip "/" (String "/" (o ++ String "/" (n ++ String "/" ""))))
    with (PyStr.lstrip "/" (o ++ String "/" (n ++ String "/" ""))).
  rewrite lstrip_plain by exact Ho.
  replace (o ++ String "/" (n ++ String "/" ""))
    with ((o ++ String "/" n) ++ String "/" "")
    by (rewrite <- str_app_assoc; reflexivity).
  rewrite rstrip_trailing.
  change (o ++ String "/" n) with (o ++ (String "/" "" ++ n)).
  rewrite str_app_assoc. apply rstrip_plain_tail. exact Hn.
Qed.

Lemma split_two (o n : string) :
  plain o = true -> plain n = true -> PyStr.split "/" (o ++ String "/" n) = [o; n].
Proof.
  intros Ho Hn. rewrite split_at_sep by apply (plain_no o Ho).
  rewrite split_no_sep by apply (plain_no n Hn). reflexivity.
Qed.

Lemma safe_path (a b : string) :
  plain a = true -> plain b = true ->
  all_chars (fun c => negb (is_unsafe c)) (a ++ String "/" b) = true.
Proof.
  intros Ha Hb. rewrite all_chars_app, (safe_of_plain a Ha). simpl.
  exact (safe_of_plain b Hb).
Qed.

(** [parse_github_repo_url] gives back the owner and name of the URL
    "https://<host>/<owner>/<name>" it is given, with or without a
    trailing '/', when the host, owner and name are non-empty and free of
    control characters, spaces and the characters '/', '?', '#', ';',
    ':', '[' and ']', and the host is ASCII (so that [_checknetloc] has
    nothing to check). *)
Theorem repo_url_round_trip (chk : netloc_checks) (host owner name : string) :
  plain host = true -> all_chars is_ascii host = true ->
  plain owner = true -> plain name = true ->
  parse_github_repo_url chk ("https://" ++ host ++ "/" ++ owner ++ "/" ++ name)
    = Ok (owner, name) /\
  parse_github_repo_url chk ("https://" ++ host ++ "/" ++ owner ++ "/" ++ name ++ "/")
    = Ok (owner, name).
Proof.
  intros Hh Hasc Ho Hn.
  destruct (plain_no _ Hh) as (h1 & h2 & h3 & h4 & h5 & h6 & h7).
  destruct (plain_no _ Ho) as (o1 & o2 & o3 & o4 & o5 & o6 & o7).
  destruct (plain_no _ Hn) as (n1 & n2 & n3 & n4 & n5 & n6 & n7).
  assert (Hgen : forall rest,
    all_chars (fun c => negb (is_unsafe c)) rest = true ->
    contains "?" rest = false -> contains "#" rest = false -> contains ";" rest = false ->
    PyStr.strip "/" (String "/" rest) = owner ++ String "/" name ->
    parse_github_repo_url chk ("https://" ++ host ++ String "/" rest) = Ok (owner, name)).
  { intros rest Hs Hq Hf Hp Hst. unfold parse_github_repo_url, urlparse.
    rewrite (urlsplit_https chk (host ++ String "/" rest) host (String "/" rest)).
    - assert (Hc : contains ";" (String "/" rest) = false) by (simpl; exact Hp).
      cbn [scheme spath netloc query fragment]. rewrite Hc.
      change (existsb (String.eqb "https") uses_params) with true.
      cbn [andb p_path].
      rewrite Hst, split_two by assumption. reflexivity.
    - rewrite all_chars_app, (safe_of_plain host Hh). simpl. exact Hs.
    - apply split_netloc_host; assumption.
    - exact h6.
    - exact h7.
    - simpl. exact Hq.
    - simpl. exact Hf.
    - unfold checknetloc. now rewrite Hasc, orb_true_r. }
  split; apply Hgen.
  - apply safe_path; assumption.
  - rewrite contains_app. simpl. now rewrite o2, n2.
  - rewrite contains_app. simpl. now rewrite o3, n3.
  - rewrite contains_app. simpl. now rewrite o4, n4.
  - apply strip_two; assumption.
  - rewrite all_chars_app, (safe_of_plain owner Ho). simpl.
    rewrite all_chars_app, (safe_of_plain name Hn). reflexivity.
  - rewrite contains_app. simpl. rewrite contains_app. simpl. now rewrite o2, n2.
  - rewrite contains_app. simpl. rewrite contains_app. simpl. now rewrite o3, n3.
  - rewrite contains_app. simpl. rewrite contains_app. simpl. now rewrite o4, n4.
  - apply strip_two_trailing; assumption.
Qed.

Lemma repo_url_round_trip_witness :
  plain "github.com" = true /\ all_chars is_ascii "github.com" = true /\
  plain "acme" = true /\ plain "widgets.js" = true /\
  parse_github_repo_url no_checks ("https://" ++ "github.com" ++ "/" ++ "acme" ++ "/" ++ "widgets.js")
    = Ok ("acme", "widgets.js").
Proof.
  split; [reflexivity |]. split; [reflexivity |]. split; [reflexivity |].
  split; [reflexivity |].
  exact (proj1 (repo_url_round_trip no_checks "github.com" "acme" "widgets.js"
                  eq_refl eq_refl eq_refl eq_refl)).
Defined.

Lemma contains_path3 (x : ascii) (a b c : string) :
  contains x a = false -> contains x b = false -> contains x c = false ->
  Ascii.eqb "/" x = false ->
  contains x (a ++ String "/" (b ++ String "/" c)) = false.
Proof.
  intros Ha Hb Hc Hs. rewrite contains_app. cbn [contains].
  rewrite contains_app. cbn [contains]. now rewrite Ha, Hb, Hc, Hs.
Qed.

(** Without a scheme, the URL text is all path: [parse_github_repo_url]
    on "<host>/<owner>/<name>" returns the host and the owner, not the
    owner and the name (same conditions on the pieces as above). *)
Theorem schemeless_url_host_as_owner (chk : netloc_checks) (host owner name : string) :
  plain host = true -> plain owner = true -> plain name = true ->
  parse_github_repo_url chk (host ++ "/" ++ owner ++ "/" ++ name) = Ok (host, owner).
Proof.
  intros Ha Hb Hc.
  destruct (plain_no _ Ha) as (a1 & a2 & a3 & a4 & a5 & _ & _).
  destruct (plain_no _ Hb) as (b1 & b2 & b3 & b4 & b5 & _ & _).
  destruct (plain_no _ Hc) as (c1 & c2 & c3 & c4 & c5 & _ & _).
  change (host ++ "/" ++ owner ++ "/" ++ name)
    with (host ++ String "/" (owner ++ String "/" name)).
  unfold parse_github_repo_url, urlparse.
  rewrite (urlsplit_no_scheme chk (host ++ String "/" (owner ++ String "/" name))).
  - cbn [scheme spath netloc query fragment].
    rewrite (contains_path3 ";" host owner name) by (assumption || reflexivity).
    change (existsb (String.eqb "") uses_params) with true.
    cbn [andb p_path].
    assert (E : host ++ String "/" (owner ++ String "/" name)
                = (host ++ String "/" (owner ++ String "/" "")) ++ name).
    { rewrite <- str_app_assoc. cbn [String.append]. rewrite <- str_app_assoc.
      reflexivity. }
    unfold PyStr.strip. rewrite lstrip_plain by exact Ha.
    rewrite E, rstrip_plain_tail by exact Hc. rewrite <- E.
    rewrite split_at_sep by exact a1. rewrite split_at_sep by exact b1.
    rewrite split_no_sep by exact c1. reflexivity.
  - rewrite all_chars_app, (safe_of_plain host Ha). simpl.
    exact (safe_path owner name Hb Hc).
  - destruct (plain_cons host Ha) as (x & h' & -> & Hx).
    apply plain_char_facts in Hx as (_ & Hx0 & Hxs & _).
    exists x, (h' ++ String "/" (owner ++ String "/" name)). auto.
  - apply contains_path3; assumption || reflexivity.
  - apply contains_path3; assumption || reflexivity.
  - apply contains_path3; assumption || reflexivity.
Qed.

Lemma schemeless_url_host_as_owner_witness :
  plain "github.com" = true /\ plain "acme" = true /\ plain "widgets" = true /\
  parse_github_repo_url no_checks ("github.com" ++ "/" ++ "acme" ++ "/" ++ "widgets")
    = Ok ("github.com", "acme").
Proof.
  split; [reflexivity |]. split; [reflexivity |]. split; [reflexivity |].
  exact (schemeless_url_host_as_owner no_checks "github.com" "acme" "widgets"
           eq_refl eq_refl eq_refl).
Defined.

End UrlMore.
